(** * Pod Manager Controller: a shallow embedding of [controller.py]

    The controller is a thin layer over a container engine client.  Every
    method is a short sequence of engine requests wrapped in [try]/[except]
    blocks.  The embedding therefore threads an explicit world through each
    method: the engine's own state, the trace of requests issued to the
    engine together with their outcomes, and the records handed to the
    module-level logger.  Python exceptions are an explicit [Raise]
    outcome. *)

From Stdlib Require Import ZArith String Ascii List Bool Lia.
From stdpp Require Import base option list strings gmap.

Import ListNotations.
Local Open Scope string_scope.
Local Open Scope Z_scope.
Local Open Scope list_scope.

Set Warnings "-register-all".

(** ** Python values *)

Module Py.

(** The values a deployment file can hold after [json.load], which are also
    the values a configuration dictionary carries.  A [float] is kept as its
    IEEE 754 binary64 bit pattern; a [dict] with string keys is a finite
    map. *)
Inductive value : Type :=
  | VNone
  | VBool (b : bool)
  | VInt (n : Z)
  | VFloat (bits : Z)
  | VStr (s : string)
  | VList (l : list value)
  | VDict (d : gmap string value).

(** Truth value testing ([if x:], [not x]): [None], [False], numeric zero
    and empty strings and containers are false. *)
Definition float_is_zero (bits : Z) : bool :=
  Z.land bits 0x7FFFFFFFFFFFFFFF =? 0.

Definition truthy (v : value) : bool :=
  match v with
  | VNone => false
  | VBool b => b
  | VInt n => negb (n =? 0)
  | VFloat bits => negb (float_is_zero bits)
  | VStr s => negb (String.eqb s "")
  | VList l => match l with [] => false | _ :: _ => true end
  | VDict d => negb (bool_decide (d = ∅))
  end.

(** [isinstance(v, dict)]. *)
Definition is_dict (v : value) : bool :=
  match v with VDict _ => true | _ => false end.

(** [s[:n]] on a string: the first [n] characters, or all of [s] when it is
    shorter. *)
Fixpoint str_take (n : nat) (s : string) : string :=
  match n, s with
  | O, _ => EmptyString
  | S _, EmptyString => EmptyString
  | S n', String c s' => String c (str_take n' s')
  end.

(** The exception classes that reach the controller's handlers: those of
    the engine client ([docker.errors]), of [open], of [json.load] and of
    [bytes.decode], and the built-in ones an attribute or type mismatch
    raises.  All of them derive from [Exception]; [KeyboardInterrupt] and
    [SystemExit], which do not, are signals to the process rather than
    failures of a request and are left out.  [parent] is the direct base
    class. *)
Inductive exn : Type :=
  | Exception
  | DockerException
  | APIError
  | NotFound
  | OSError
  | FileNotFoundError
  | PermissionError
  | IsADirectoryError
  | ValueError
  | JSONDecodeError
  | UnicodeDecodeError
  | TypeError
  | AttributeError
  | RecursionError.

Definition parent (e : exn) : option exn :=
  match e with
  | Exception => None
  | DockerException => Some Exception
  | APIError => Some DockerException
  | NotFound => Some APIError
  | OSError => Some Exception
  | FileNotFoundError => Some OSError
  | PermissionError => Some OSError
  | IsADirectoryError => Some OSError
  | ValueError => Some Exception
  | JSONDecodeError => Some ValueError
  | UnicodeDecodeError => Some ValueError
  | TypeError => Some Exception
  | AttributeError => Some Exception
  | RecursionError => Some Exception
  end.

Definition exn_eqb (a b : exn) : bool :=
  match a, b with
  | Exception, Exception | DockerException, DockerException
  | APIError, APIError | NotFound, NotFound | OSError, OSError
  | FileNotFoundError, FileNotFoundError
  | PermissionError, PermissionError
  | IsADirectoryError, IsADirectoryError
  | ValueError, ValueError | JSONDecodeError, JSONDecodeError
  | UnicodeDecodeError, UnicodeDecodeError | TypeError, TypeError
  | AttributeError, AttributeError | RecursionError, RecursionError => true
  | _, _ => false
  end.

(** [isinstance(e, cls)]: walk up the base classes.  The hierarchy is four
    levels deep, so four steps reach the root from anywhere. *)
Fixpoint isinstance_fuel (fuel : nat) (e cls : exn) : bool :=
  exn_eqb e cls ||
  match fuel with
  | O => false
  | S fuel' =>
      match parent e with
      | Some p => isinstance_fuel fuel' p cls
      | None => false
      end
  end.

Definition isinstance (e cls : exn) : bool := isinstance_fuel 4 e cls.

(** The outcome of a call: it returns a value or raises. *)
Inductive outcome (A : Type) : Type :=
  | Return (a : A)
  | Raise (e : exn).
Arguments Return {A} a.
Arguments Raise {A} e.

End Py.
Export Py.

(** ** The engine client the controller talks to *)

(** An image and a container as the engine's client library presents them:
    objects whose attributes the controller reads.  The identifier, the name
    and the status of a container are data the engine sent with it.  Its
    image is not: the library looks the image up on the engine when the
    attribute is read, so the read can raise, and it gives [None] for a
    container whose image the engine does not name.  [image] is what reading
    the attribute gives. *)
Module Image.
Record t : Type := { id : string; tags : list string }.
End Image.

Module Container.
Record t : Type :=
  { id : string; name : string; image : outcome (option Image.t);
    status : string }.
End Container.

(** The requests of [docker.from_env()]'s client that the controller uses.
    Each one may change the engine's state [S] and either returns or raises.
    [containers_run] receives the keyword arguments as the dictionary the
    controller builds. *)
Record DockerClient (S : Type) : Type :=
  { images_pull : value → S → outcome () * S;
    containers_run : gmap string value → S → outcome Container.t * S;
    containers_list : bool → S → outcome (list Container.t) * S;
    containers_get : string → S → outcome Container.t * S;
    container_stop : Container.t → S → outcome () * S;
    container_remove : Container.t → bool → S → outcome () * S;
    container_logs : Container.t → Z → S → outcome (list Byte.byte) * S }.
Arguments images_pull {S}.
Arguments containers_run {S}.
Arguments containers_list {S}.
Arguments containers_get {S}.
Arguments container_stop {S}.
Arguments container_remove {S}.
Arguments container_logs {S}.

(** One request to the engine, with what came back. *)
Inductive event : Type :=
  | EvPull (image : value) (r : outcome ())
  | EvRun (kwargs : gmap string value) (r : outcome Container.t)
  | EvList (all : bool) (r : outcome (list Container.t))
  | EvGet (container_id : string) (r : outcome Container.t)
  | EvStop (c : Container.t) (r : outcome ())
  | EvRemove (c : Container.t) (force : bool) (r : outcome ())
  | EvLogs (c : Container.t) (tail : Z) (r : outcome (list Byte.byte)).

(** ** Logging *)

Inductive level : Type := INFO | WARNING | ERROR.

(** The messages of the module, one constructor per format string, holding
    the values interpolated into it. *)
Inductive message : Type :=
  | MsgImageNotSpecified
  | MsgEnsuringImage (image : value)
  | MsgCouldNotPull (image : value) (e : exn)
  | MsgDeploying (container_config : gmap string value)
  | MsgDeployed (short_id : string)
  | MsgDeployAPIError (e : exn)
  | MsgDeployUnexpected (e : exn)
  | MsgErrorListing (e : exn)
  | MsgStopped (container_id : string)
  | MsgRemoved (container_id : string)
  | MsgContainerNotFound (container_id : string)
  | MsgErrorStopping (container_id : string) (e : exn)
  | MsgErrorRemoving (container_id : string) (e : exn)
  | MsgErrorGettingLogs (container_id : string) (e : exn)
  | MsgFileNotFound (filepath : string)
  | MsgInvalidJSON (e : exn)
  | MsgLoadingDeployments (config_file : string)
  | MsgProcessing (name : value)
  | MsgDeploymentSuccessful (container_id : string)
  | MsgDeploymentFailed
  | MsgNoConfiguration (config_file : string)
  | MsgMonitoringMode.

Definition log_record : Type := level * message.

(** ** The world and the monad of controller code *)

Record world (S : Type) : Type :=
  { engine : S; trace : list event; records : list log_record }.
Arguments engine {S}.
Arguments trace {S}.
Arguments records {S}.

Definition M (S A : Type) : Type := world S → outcome A * world S.

Section Monad.
Context {S : Type}.

Definition M_ret {A} (a : A) : M S A := λ w, (Return a, w).

Definition M_bind {A B} (f : A → M S B) (m : M S A) : M S B :=
  λ w, match m w with
       | (Return a, w') => f a w'
       | (Raise e, w') => (Raise e, w')
       end.

Definition raise {A} (e : exn) : M S A := λ w, (Raise e, w).

(** [try: body / except cls1 as e: h1 e / except cls2 as e: h2 e / ...]:
    the first clause whose class the exception is an instance of handles
    it; with none, the exception propagates.  What the body did to the
    world before raising stays done. *)
Fixpoint find_handler {A} (e : exn) (handlers : list (exn * (exn → M S A)))
  : option (exn → M S A) :=
  match handlers with
  | [] => None
  | (cls, h) :: rest =>
      if isinstance e cls then Some h else find_handler e rest
  end.

Definition try_except {A} (body : M S A)
    (handlers : list (exn * (exn → M S A))) : M S A :=
  λ w, match body w with
       | (Return a, w') => (Return a, w')
       | (Raise e, w') =>
           match find_handler e handlers with
           | Some h => h e w'
           | None => (Raise e, w')
           end
       end.

(** [logger.info], [logger.warning], [logger.error]. *)
Definition log (lvl : level) (msg : message) : M S () :=
  λ w, (Return (),
        {| engine := engine w; trace := trace w;
           records := records w ++ [(lvl, msg)] |}).

(** Issue a request: run it on the engine, record it with its outcome, and
    hand the outcome on as a return or a raise. *)
Definition request {A} (op : S → outcome A * S) (ev : outcome A → event)
  : M S A :=
  λ w, let '(r, s') := op (engine w) in
       (r, {| engine := s'; trace := trace w ++ [ev r];
              records := records w |}).

End Monad.

#[global] Instance M_mret {S} : MRet (M S) := @M_ret S.
#[global] Instance M_mbind {S} : MBind (M S) := @M_bind S.

(** ** The Python runtime around the controller *)

(** What the controller uses from the standard library: opening a file for
    reading (the file is its content), [json.load] on an open file,
    [bytes.decode('utf-8')], the process environment and
    [os.path.exists]. *)
Record Runtime : Type :=
  { open_ : string → outcome (list Byte.byte);
    json_load : list Byte.byte → outcome value;
    bytes_decode_utf8 : list Byte.byte → outcome string;
    environ_get : string → option string;
    path_exists : string → bool }.

Section Helpers.
Context {S : Type}.

(** A library call that does not touch the engine. *)
Definition lift {A} (r : outcome A) : M S A := λ w, (r, w).

(** [config.get(key)] and [config.get(key, dflt)]: a method of [dict]; any
    other value has no such attribute. *)
Definition dict_get (d : gmap string value) (key : string) : value :=
  default VNone (d !! key).

Definition py_get (v : value) (key : string) (dflt : value) : M S value :=
  match v with
  | VDict d => mret (default dflt (d !! key))
  | _ => raise AttributeError
  end.

(** [if key in config: container_config[key] = config[key]]. *)
Definition copy_key (key : string) (config container_config : gmap string value)
  : gmap string value :=
  match config !! key with
  | Some v => <[key := v]> container_config
  | None => container_config
  end.

End Helpers.

(** ** class PodManagerController *)

Module PodManagerController.
Section Methods.
Context {S : Type} (client : DockerClient S) (rt : Runtime).

(** The keyword arguments [deploy_container] assembles for
    [client.containers.run]. *)
Definition container_config_of (config : gmap string value)
  : gmap string value :=
  let image := dict_get config "image" in
  let name := dict_get config "name" in
  let container_config : gmap string value :=
    <["detach" := VBool true]> {["image" := image]} in
  let container_config :=
    if truthy name then <["name" := name]> container_config
    else container_config in
  let container_config := copy_key "environment" config container_config in
  let container_config := copy_key "ports" config container_config in
  let container_config := copy_key "command" config container_config in
  let container_config := copy_key "volumes" config container_config in
  container_config.

Definition deploy_container (config : value) : M S (option string) :=
  try_except
    (match config with
     | VDict d =>
         let image := dict_get d "image" in
         if negb (truthy image) then
           log ERROR MsgImageNotSpecified ;;
           mret None
         else
           log INFO (MsgEnsuringImage image) ;;
           try_except
             (request (images_pull client image) (EvPull image))
             [(Exception, λ e, log WARNING (MsgCouldNotPull image e))] ;;
           let container_config := container_config_of d in
           log INFO (MsgDeploying container_config) ;;
           container ← request (containers_run client container_config)
                               (EvRun container_config) ;
           log INFO (MsgDeployed (str_take 12 (Container.id container))) ;;
           mret (Some (Container.id container))
     | _ => raise AttributeError
     end)
    [(APIError, λ e, log ERROR (MsgDeployAPIError e) ;; mret None);
     (Exception, λ e, log ERROR (MsgDeployUnexpected e) ;; mret None)].

(** The dictionary [list_containers] builds for one container, once the
    read of its image has given [img]. *)
Definition container_info_with (container : Container.t) (img : Image.t)
  : gmap string value :=
  {[ "id" := VStr (str_take 12 (Container.id container));
     "name" := VStr (Container.name container);
     "image" := VStr (match Image.tags img with
                      | tag :: _ => tag
                      | [] => str_take 12 (Image.id img)
                      end);
     "status" := VStr (Container.status container) ]}.

(** [container.image] followed by an attribute of what it gives: the read
    may raise, and [None] has no attribute. *)
Definition container_image (container : Container.t) : M S Image.t :=
  img ← lift (Container.image container) ;
  match img with
  | Some img => mret img
  | None => raise AttributeError
  end.

(** The dictionary literal of the loop's body.  It reads the image for the
    test on its tags and again for the tag or the identifier it takes; the
    reads give the same. *)
Definition container_info_of (container : Container.t)
  : M S (gmap string value) :=
  img ← container_image container ;
  mret (container_info_with container img).

(** The [for] loop of [list_containers]: append one dictionary per
    container to [container_info].  An exception raised on the way leaves
    the loop. *)
Fixpoint list_containers_loop (containers : list Container.t)
    (container_info : list (gmap string value))
  : M S (list (gmap string value)) :=
  match containers with
  | [] => mret container_info
  | container :: rest =>
      info ← container_info_of container ;
      list_containers_loop rest (container_info ++ [info])
  end.

Definition list_containers (all_containers : option bool)
  : M S (list (gmap string value)) :=
  let all_containers := default false all_containers in
  try_except
    (containers ← request (containers_list client all_containers)
                          (EvList all_containers) ;
     list_containers_loop containers [])
    [(Exception, λ e, log ERROR (MsgErrorListing e) ;; mret [])].

Definition stop_container (container_id : string) : M S bool :=
  try_except
    (container ← request (containers_get client container_id)
                         (EvGet container_id) ;
     request (container_stop client container) (EvStop container) ;;
     log INFO (MsgStopped container_id) ;;
     mret true)
    [(NotFound, λ _, log ERROR (MsgContainerNotFound container_id) ;;
                     mret false);
     (Exception, λ e, log ERROR (MsgErrorStopping container_id e) ;;
                      mret false)].

Definition remove_container (container_id : string) (force : option bool)
  : M S bool :=
  let force := default false force in
  try_except
    (container ← request (containers_get client container_id)
                         (EvGet container_id) ;
     request (container_remove client container force)
             (EvRemove container force) ;;
     log INFO (MsgRemoved container_id) ;;
     mret true)
    [(NotFound, λ _, log ERROR (MsgContainerNotFound container_id) ;;
                     mret false);
     (Exception, λ e, log ERROR (MsgErrorRemoving container_id e) ;;
                      mret false)].

Definition get_container_logs (container_id : string) (tail : option Z)
  : M S (option string) :=
  let tail := default 100 tail in
  try_except
    (container ← request (containers_get client container_id)
                         (EvGet container_id) ;
     raw ← request (container_logs client container tail)
                   (EvLogs container tail) ;
     logs ← lift (bytes_decode_utf8 rt raw) ;
     mret (Some logs))
    [(NotFound, λ _, log ERROR (MsgContainerNotFound container_id) ;;
                     mret None);
     (Exception, λ e, log ERROR (MsgErrorGettingLogs container_id e) ;;
                      mret None)].

End Methods.
End PodManagerController.

(** ** Module-level functions *)

Section TopLevel.
Context {S : Type} (client : DockerClient S) (rt : Runtime).

Definition load_deployments_from_file (filepath : string)
  : M S (list value) :=
  try_except
    (f ← lift (open_ rt filepath) ;
     data ← lift (json_load rt f) ;
     mret (match data with VList l => l | _ => [data] end))
    [(FileNotFoundError, λ _, log WARNING (MsgFileNotFound filepath) ;;
                              mret []);
     (JSONDecodeError, λ e, log ERROR (MsgInvalidJSON e) ;; mret [])].

(** [if container_id:] on an [Optional[str]]. *)
Definition truthy_id (container_id : option string) : bool :=
  match container_id with
  | Some s => truthy (VStr s)
  | None => false
  end.

(** The [for deployment in deployments] loop of [main]. *)
Fixpoint main_for_deployments (deployments : list value) : M S () :=
  match deployments with
  | [] => mret ()
  | deployment :: rest =>
      name ← py_get deployment "name" (VStr "unnamed") ;
      log INFO (MsgProcessing name) ;;
      container_id ← PodManagerController.deploy_container client deployment ;
      (if truthy_id container_id
       then log INFO (MsgDeploymentSuccessful (default "" container_id))
       else log ERROR MsgDeploymentFailed) ;;
      main_for_deployments rest
  end.

(** [main] from the lookup of the configuration file to the end of the
    deployment loop.  The construction of the controller before it and the
    listing and the idle [while True: time.sleep(10)] after it are not part
    of this function. *)
Definition main_deployments : M S () :=
  let config_file :=
    default "/config/deployments.json" (environ_get rt "DEPLOYMENT_CONFIG") in
  if path_exists rt config_file then
    log INFO (MsgLoadingDeployments config_file) ;;
    deployments ← load_deployments_from_file config_file ;
    main_for_deployments deployments
  else
    log INFO (MsgNoConfiguration config_file) ;;
    log INFO MsgMonitoringMode.

End TopLevel.

(** ** A small engine and runtime to run the controller on *)

Module Fixture.

(** The engine's state is the list of its containers, oldest first. *)
Definition state : Type := list Container.t.

Definition same_id (c c' : Container.t) : bool :=
  String.eqb (Container.id c) (Container.id c').

Definition is_running (c : Container.t) : bool :=
  String.eqb (Container.status c) "running".

(** Identifiers are 24 characters long and differ only after the 12th. *)
Definition fresh_id (st : state) : string :=
  "4e5f6a7b8c9d" +:+ match length st with
                    | O => "000000000000"
                    | 1%nat => "000000000001"
                    | 2%nat => "000000000002"
                    | _ => "00000000000f"
                    end.

Definition str_of (v : option value) (dflt : string) : string :=
  match v with Some (VStr s) => s | _ => dflt end.

(** The image ["ghost:latest"] exists nowhere; ["local:dev"] was built on
    the host and is in no registry, so pulling it fails while containers of
    it can be created; ["locked:latest"] can be pulled but containers of it
    cannot be created; an image that is not a string is rejected. *)
Definition pull (image : value) (st : state) : outcome () * state :=
  match image with
  | VStr s => if String.eqb s "ghost:latest" || String.eqb s "local:dev"
              then (Raise NotFound, st)
              else (Return (), st)
  | _ => (Raise TypeError, st)
  end.

Definition run (kwargs : gmap string value) (st : state)
  : outcome Container.t * state :=
  match kwargs !! "image" with
  | Some (VStr s) =>
      if String.eqb s "ghost:latest" then (Raise NotFound, st)
      else if String.eqb s "locked:latest" then (Raise APIError, st)
      else
        let c := {| Container.id := fresh_id st;
                    Container.name := str_of (kwargs !! "name") "quirky_turing";
                    Container.image :=
                      Return (Some {| Image.id := "sha256:9d3f1c7a5b2e8f60";
                                      Image.tags := [s] |});
                    Container.status := "running" |} in
        (Return c, st ++ [c])
  | _ => (Raise TypeError, st)
  end.

Definition list_ (all : bool) (st : state)
  : outcome (list Container.t) * state :=
  (Return (if all then st else List.filter is_running st), st).

Definition get (container_id : string) (st : state)
  : outcome Container.t * state :=
  match List.find (λ c, String.eqb (Container.id c) container_id
                        || String.eqb (Container.name c) container_id) st with
  | Some c => (Return c, st)
  | None => (Raise NotFound, st)
  end.

Definition exited (c : Container.t) : Container.t :=
  {| Container.id := Container.id c; Container.name := Container.name c;
     Container.image := Container.image c; Container.status := "exited" |}.

Definition stop (c : Container.t) (st : state) : outcome () * state :=
  if existsb (same_id c) st
  then (Return (), List.map (λ c', if same_id c c' then exited c' else c') st)
  else (Raise NotFound, st).

(** A running container is removed only with [force]. *)
Definition remove (c : Container.t) (force : bool) (st : state)
  : outcome () * state :=
  match List.find (same_id c) st with
  | Some c' =>
      if is_running c' && negb force then (Raise APIError, st)
      else (Return (), List.filter (λ c'', negb (same_id c c'')) st)
  | None => (Raise NotFound, st)
  end.

Definition logs (c : Container.t) (tail : Z) (st : state)
  : outcome (list Byte.byte) * state :=
  if existsb (same_id c) st
  then (Return (list_byte_of_string "ready"), st)
  else (Raise NotFound, st).

Definition client : DockerClient state :=
  {| images_pull := pull; containers_run := run; containers_list := list_;
     containers_get := get; container_stop := stop;
     container_remove := remove; container_logs := logs |}.

(** An engine whose every request fails with a connection error. *)
Definition offline : DockerClient state :=
  {| images_pull := λ _ st, (Raise DockerException, st);
     containers_run := λ _ st, (Raise DockerException, st);
     containers_list := λ _ st, (Raise DockerException, st);
     containers_get := λ _ st, (Raise DockerException, st);
     container_stop := λ _ st, (Raise DockerException, st);
     container_remove := λ _ _ st, (Raise DockerException, st);
     container_logs := λ _ _ st, (Raise DockerException, st) |}.

(** Two deployment specifications and the files of the fixture. *)
Definition app1_config : gmap string value :=
  {[ "name" := VStr "app1"; "image" := VStr "nginx:alpine" ]}.
Definition app2_config : gmap string value :=
  {[ "name" := VStr "app2"; "image" := VStr "redis:alpine" ]}.
Definition app1 : value := VDict app1_config.
Definition app2 : value := VDict app2_config.

(** Configurations that go wrong: no image at all, an image only the host
    has, an image of which no container can be created, an image that
    exists nowhere. *)
Definition nameless_config : gmap string value :=
  {[ "name" := VStr "test-container" ]}.
Definition dev_config : gmap string value :=
  {[ "name" := VStr "dev"; "image" := VStr "local:dev" ]}.
Definition locked_config : gmap string value :=
  {[ "name" := VStr "vault"; "image" := VStr "locked:latest" ]}.
Definition ghost_config : gmap string value :=
  {[ "name" := VStr "ghost"; "image" := VStr "ghost:latest" ]}.

(** The text of a deployment: [{"name":"<name>","image":"<image>"}]. *)
Definition dq : string := String "034"%char EmptyString.

Definition quoted (s : string) : string := dq +:+ s +:+ dq.

Definition text_of (name image : string) : string :=
  "{" +:+ quoted "name" +:+ ":" +:+ quoted name +:+ ","
      +:+ quoted "image" +:+ ":" +:+ quoted image +:+ "}".

Definition text_single : string := text_of "app1" "nginx:alpine".

Definition text_many : string :=
  "[" +:+ text_of "app1" "nginx:alpine" +:+ ","
      +:+ text_of "app2" "redis:alpine" +:+ "]".

Definition text_broken : string := "{ invalid json }".

(** The file system: three regular files, a directory, a file the process
    may not read, and nothing else. *)
Definition fs_open (filepath : string) : outcome (list Byte.byte) :=
  if String.eqb filepath "/config/deployments.json"
  then Return (list_byte_of_string text_many)
  else if String.eqb filepath "/config/single.json"
  then Return (list_byte_of_string text_single)
  else if String.eqb filepath "/config/broken.json"
  then Return (list_byte_of_string text_broken)
  else if String.eqb filepath "/config" then Raise IsADirectoryError
  else if String.eqb filepath "/config/private.json" then Raise PermissionError
  else Raise FileNotFoundError.

(** The decoder knows the two well-formed documents of the file system and
    rejects every other text. *)
Definition fs_json_load (f : list Byte.byte) : outcome value :=
  let text := string_of_list_byte f in
  if String.eqb text text_many then Return (VList [app1; app2])
  else if String.eqb text text_single then Return app1
  else Raise JSONDecodeError.

(** Text of the ASCII range decodes to itself; any byte above it is taken
    for a broken sequence. *)
Definition is_ascii (b : Byte.byte) : bool := (Byte.to_N b <? 128)%N.

Definition decode_ascii (raw : list Byte.byte) : outcome string :=
  if forallb is_ascii raw then Return (string_of_list_byte raw)
  else Raise UnicodeDecodeError.

Definition runtime : Runtime :=
  {| open_ := fs_open; json_load := fs_json_load;
     bytes_decode_utf8 := decode_ascii;
     environ_get := λ _, None;
     path_exists := λ p, match fs_open p with
                         | Raise FileNotFoundError => false
                         | _ => true
                         end |}.

(** A world with nothing in it yet. *)
Definition fresh : world state :=
  {| engine := []; trace := []; records := [] |}.

(** A world in which the engine already has two containers, the second one
    of an image without a tag. *)
Definition nginx_image : Image.t :=
  {| Image.id := "sha256:9d3f1c7a5b2e8f60";
     Image.tags := ["nginx:alpine"; "nginx:1.27"] |}.

Definition orphan_image : Image.t :=
  {| Image.id := "sha256:77aa00bb11cc22dd"; Image.tags := [] |}.

Definition nginx : Container.t :=
  {| Container.id := "4e5f6a7b8c9d000000000000"; Container.name := "app1";
     Container.image := Return (Some nginx_image);
     Container.status := "running" |}.

Definition orphan : Container.t :=
  {| Container.id := "0a1b2c3d4e5f66778899aabb"; Container.name := "orphan";
     Container.image := Return (Some orphan_image);
     Container.status := "exited" |}.

(** The container the fixture creates first for [nginx:alpine]. *)
Definition nginx_of (name : string) : Container.t :=
  {| Container.id := "4e5f6a7b8c9d000000000000"; Container.name := name;
     Container.image :=
       Return (Some {| Image.id := "sha256:9d3f1c7a5b2e8f60";
                       Image.tags := ["nginx:alpine"] |});
     Container.status := "running" |}.

Definition populated : world state :=
  {| engine := [nginx; orphan]; trace := []; records := [] |}.

(** A container whose image has been deleted from the engine since: the
    lookup of the image raises.  And a container the engine names no image
    for. *)
Definition stale : Container.t :=
  {| Container.id := "9f8e7d6c5b4a33221100ffee"; Container.name := "stale";
     Container.image := Raise NotFound;
     Container.status := "exited" |}.

Definition imageless : Container.t :=
  {| Container.id := "1122334455667788990011aa";
     Container.name := "imageless";
     Container.image := Return None;
     Container.status := "created" |}.

Definition haunted : world state :=
  {| engine := [nginx; stale]; trace := []; records := [] |}.

(** The engine of the repository's unit tests: every request returns, with
    the container or the containers the test has set up, and the engine
    keeps no state. *)
Definition mock (container : Container.t) (containers : list Container.t)
  : DockerClient () :=
  {| images_pull := λ _ s, (Return (), s);
     containers_run := λ _ s, (Return container, s);
     containers_list := λ _ s, (Return containers, s);
     containers_get := λ _ s, (Return container, s);
     container_stop := λ _ s, (Return (), s);
     container_remove := λ _ _ s, (Return (), s);
     container_logs := λ _ _ s, (Return [], s) |}.

Definition mock_container (id name tag : string) : Container.t :=
  {| Container.id := id; Container.name := name;
     Container.image :=
       Return (Some {| Image.id := "sha256:0000"; Image.tags := [tag] |});
     Container.status := "running" |}.

Definition mock_world : world () :=
  {| engine := (); trace := []; records := [] |}.

End Fixture.

(** ** Vocabulary of the properties *)

(** The image entry of a configuration is absent, or is the empty string. *)
Definition image_missing_or_empty (d : gmap string value) : Prop :=
  d !! "image" = None ∨ d !! "image" = Some (VStr "").

(** The keyword arguments of the creation requests of a trace, in order. *)
Definition run_requests (t : list event) : list (gmap string value) :=
  omap (λ ev, match ev with EvRun kwargs _ => Some kwargs | _ => None end) t.

(** The image of the container can be read. *)
Definition has_image (c : Container.t) : bool :=
  match Container.image c with
  | Return (Some _) => true
  | _ => false
  end.

(** What projecting the engine's containers comes to: the dictionaries of
    all of them, or the exception of the first one whose image cannot be
    read. *)
Fixpoint project_all (cs : list Container.t)
  : outcome (list (gmap string value)) :=
  match cs with
  | [] => Return []
  | c :: rest =>
      match Container.image c with
      | Return (Some img) =>
          match project_all rest with
          | Return infos =>
              Return (PodManagerController.container_info_with c img :: infos)
          | Raise e => Raise e
          end
      | Return None => Raise AttributeError
      | Raise e => Raise e
      end
  end.

(** A pull or a creation, as opposed to a request that lists, stops or
    removes containers or reads their output. *)
Definition is_deploy_event (ev : event) : bool :=
  match ev with EvPull _ _ | EvRun _ _ => true | _ => false end.

(** What [deploy_container] answers for the outcome of the creation
    request. *)
Definition deployed_id (r : outcome Container.t) : option string :=
  match r with
  | Return container => Some (Container.id container)
  | Raise _ => None
  end.

(** Whether a request returned. *)
Definition succeeded {A} (r : outcome A) : bool :=
  match r with Return _ => true | Raise _ => false end.

(** What [get_container_logs] answers for the outcome of the logs request:
    the decoded text, if the request returned and its bytes decode. *)
Definition logs_text (rt : Runtime) (r : outcome (list Byte.byte))
  : option string :=
  match r with
  | Return raw =>
      match bytes_decode_utf8 rt raw with
      | Return text => Some text
      | Raise _ => None
      end
  | Raise _ => None
  end.

(** The records [deploy_container] logs when the configuration has an
    image, given what the pull and the creation answered. *)
Definition deploy_records (image : value) (pull_r : outcome ())
    (container_config : gmap string value) (run_r : outcome Container.t)
  : list log_record :=
  [(INFO, MsgEnsuringImage image)] ++
  match pull_r with
  | Return _ => []
  | Raise e => [(WARNING, MsgCouldNotPull image e)]
  end ++
  [(INFO, MsgDeploying container_config)] ++
  match run_r with
  | Return container =>
      [(INFO, MsgDeployed (str_take 12 (Container.id container)))]
  | Raise e =>
      [(ERROR, if isinstance e APIError then MsgDeployAPIError e
               else MsgDeployUnexpected e)]
  end.

(** Three readings of the log.  [processed]: the names [main] announced, one
    per deployment it took up.  [applications]: the first record of each
    run of [deploy_container] on a dictionary, as the image it goes on with
    or [None] when it stops for want of one.  [reported]: the outcomes
    [main] reported, the identifier or [None] for a failure. *)
Definition processed (rs : list log_record) : list value :=
  omap (λ r : log_record,
          match snd r with MsgProcessing name => Some name | _ => None end)
       rs.

Definition applications (rs : list log_record) : list (option value) :=
  omap (λ r : log_record,
          match snd r with
          | MsgEnsuringImage image => Some (Some image)
          | MsgImageNotSpecified => Some None
          | _ => None
          end) rs.

Definition reported (rs : list log_record) : list (option string) :=
  omap (λ r : log_record,
          match snd r with
          | MsgDeploymentSuccessful container_id => Some (Some container_id)
          | MsgDeploymentFailed => Some None
          | _ => None
          end) rs.

(** What a deployment file's entry asks for: the name [main] announces, the
    image [deploy_container] goes on with if any. *)
Definition announced_name (d : gmap string value) : value :=
  default (VStr "unnamed") (d !! "name").

Definition usable_image (d : gmap string value) : option value :=
  if truthy (dict_get d "image") then Some (dict_get d "image") else None.

(** The creation request an entry leads to, if it has a usable image. *)
Definition requested_config (d : gmap string value)
  : option (gmap string value) :=
  if truthy (dict_get d "image")
  then Some (PodManagerController.container_config_of d) else None.

Ltac unfold_m :=
  unfold try_except, request, log, lift, raise, py_get,
    mbind, M_mbind, M_bind, mret, M_mret, M_ret in *.

(** ** Construction of the controller and the whole of main *)

Module Startup.

(** What can end a run of [main] early.  Besides the exceptions above there
    are two more: [KeyError], which subscripting a dictionary raises and
    which is an [Exception], and [SystemExit], which [sys.exit] raises and
    which is not. *)
Inductive fault : Type :=
  | Exn (e : exn)
  | KeyError (key : string)
  | SystemExit (code : Z).

(** [isinstance(f, cls)] for a class [cls] of the hierarchy above. *)
Definition fault_isinstance (f : fault) (cls : exn) : bool :=
  match f with
  | Exn e => isinstance e cls
  | KeyError _ => exn_eqb cls Exception
  | SystemExit _ => false
  end.

Inductive result (A : Type) : Type :=
  | Ok (a : A)
  | Fail (f : fault).
Arguments Ok {A} a.
Arguments Fail {A} f.

(** The messages [__init__] and [main] log themselves. *)
Inductive message : Type :=
  | MsgStarting
  | MsgClientInitialized
  | MsgClientInitFailed (f : fault)
  | MsgControllerInitFailed (f : fault)
  | MsgCurrentContainers
  | MsgContainerLine (name id status : value)
  | MsgControllerInitialized.

(** An entry of the log of the process: a record of the controller's
    methods and of the deployment part of [main], or one of the messages
    above.  The journal holds both kinds in the order they were logged. *)
Inductive entry : Type :=
  | Logged (r : log_record)
  | Noted (lvl : level) (msg : message).

Record process (S : Type) : Type :=
  { inner : world S; journal : list entry }.
Arguments inner {S}.
Arguments journal {S}.

Definition P (S A : Type) : Type := process S → result A * process S.

Section Monad.
Context {S : Type}.

Definition P_ret {A} (a : A) : P S A := λ p, (Ok a, p).

Definition P_bind {A B} (f : A → P S B) (m : P S A) : P S B :=
  λ p, match m p with
       | (Ok a, p') => f a p'
       | (Fail e, p') => (Fail e, p')
       end.

Definition fail {A} (f : fault) : P S A := λ p, (Fail f, p).

(** [try: body / except cls as e: handler e]. *)
Definition catch {A} (body : P S A) (cls : exn) (handler : fault → P S A)
  : P S A :=
  λ p, match body p with
       | (Ok a, p') => (Ok a, p')
       | (Fail f, p') =>
           if fault_isinstance f cls then handler f p' else (Fail f, p')
       end.

(** The outcome of a library call, as a step of the process. *)
Definition call {A} (r : outcome A) : P S A :=
  λ p, (match r with Return a => Ok a | Raise e => Fail (Exn e) end, p).

Definition note (lvl : level) (msg : message) : P S () :=
  λ p, (Ok (), {| inner := inner p;
                  journal := journal p ++ [Noted lvl msg] |}).

(** Run code of the sections above: it works on the inner world, and the
    records it adds to the log go to the journal as well. *)
Definition run_inner {A} (m : M S A) : P S A :=
  λ p, let '(r, w') := m (inner p) in
       (match r with Return a => Ok a | Raise e => Fail (Exn e) end,
        {| inner := w';
           journal := journal p ++
                      (Logged <$> drop (length (records (inner p)))
                                       (records w')) |}).

End Monad.

#[global] Instance P_mret {S} : MRet (P S) := @P_ret S.
#[global] Instance P_mbind {S} : MBind (P S) := @P_bind S.

Section Main.
Context {S : Type}.

(** [PodManagerController.__init__]: the controller is its client.
    [docker_from_env] is what [docker.from_env()] gives. *)
Definition init (docker_from_env : outcome (DockerClient S))
  : P S (DockerClient S) :=
  catch
    (client ← call docker_from_env ;
     note INFO MsgClientInitialized ;;
     mret client)
    DockerException
    (λ f, note ERROR (MsgClientInitFailed f) ;; fail f).

(** [container[key]]. *)
Definition getitem (container : gmap string value) (key : string)
  : P S value :=
  match container !! key with
  | Some v => mret v
  | None => fail (KeyError key)
  end.

(** The [for container in containers] loop at the end of [main]. *)
Fixpoint main_for_containers (containers : list (gmap string value))
  : P S () :=
  match containers with
  | [] => mret ()
  | container :: rest =>
      name ← getitem container "name" ;
      id ← getitem container "id" ;
      status ← getitem container "status" ;
      note INFO (MsgContainerLine name id status) ;;
      main_for_containers rest
  end.

(** [main], up to the point where it enters [while True: time.sleep(10)];
    returning stands for entering that loop, which only an interrupt
    leaves. *)
Definition main (docker_from_env : outcome (DockerClient S)) (rt : Runtime)
  : P S () :=
  note INFO MsgStarting ;;
  controller ← catch (init docker_from_env) Exception
                 (λ f, note ERROR (MsgControllerInitFailed f) ;;
                       fail (SystemExit 1)) ;
  run_inner (main_deployments controller rt) ;;
  note INFO MsgCurrentContainers ;;
  containers ← run_inner
                 (PodManagerController.list_containers controller
                    (Some true)) ;
  main_for_containers containers ;;
  note INFO MsgControllerInitialized.

End Main.
End Startup.

(** ** More worlds to run the controller in *)

Module Scenario.

(** The runtime of the fixture with [DEPLOYMENT_CONFIG] set. *)
Definition runtime_at (config_file : string) : Runtime :=
  {| open_ := open_ Fixture.runtime;
     json_load := json_load Fixture.runtime;
     bytes_decode_utf8 := bytes_decode_utf8 Fixture.runtime;
     environ_get := λ k, if String.eqb k "DEPLOYMENT_CONFIG"
                         then Some config_file else None;
     path_exists := path_exists Fixture.runtime |}.

(** A runtime in which the default configuration file is there, opening it
    gives [opened], and decoding what was opened gives [data]. *)
Definition serving (opened : outcome (list Byte.byte)) (data : outcome value)
  : Runtime :=
  {| open_ := λ _, opened;
     json_load := λ _, data;
     bytes_decode_utf8 := bytes_decode_utf8 Fixture.runtime;
     environ_get := λ _, None;
     path_exists := λ _, true |}.

(** A process that has logged nothing yet, on the engine of the fixture. *)
Definition boot : Startup.process Fixture.state :=
  {| Startup.inner := Fixture.fresh; Startup.journal := [] |}.

(** A configuration whose image is [null]. *)
Definition null_image_config : gmap string value :=
  {[ "name" := VStr "app0"; "image" := VNone ]}.

(** The world once [app1] has been deployed on the engine of the fixture,
    and the world once the deployment part of [main] has run there. *)
Definition after_app1 : world Fixture.state :=
  snd (PodManagerController.deploy_container Fixture.client Fixture.app1
         Fixture.fresh).

Definition after_deployments : world Fixture.state :=
  snd (main_deployments Fixture.client Fixture.runtime Fixture.fresh).

End Scenario.

(** ** Vocabulary of the further properties *)

(** The lines of the final listing in a journal: name, identifier and
    status, in the order logged. *)
Definition container_lines (j : list Startup.entry)
  : list (value * value * value) :=
  omap (λ en, match en with
              | Startup.Noted _ (Startup.MsgContainerLine name id status) =>
                  Some (name, id, status)
              | _ => None
              end) j.

(** The line [main] prints for a container of the engine. *)
Definition line_of (c : Container.t) : value * value * value :=
  (VStr (Container.name c), VStr (str_take 12 (Container.id c)),
   VStr (Container.status c)).

(** The containers the final listing of [main] prints, and the records the
    listing logs, for the answer of the engine to the list request:
    nothing is printed, and an error is logged, when the request raised or
    the image of a container could not be read. *)
Definition listed (list_r : outcome (list Container.t)) : list Container.t :=
  match list_r with
  | Return cs => if forallb has_image cs then cs else []
  | Raise _ => []
  end.

Definition listing_records (list_r : outcome (list Container.t))
  : list log_record :=
  match list_r with
  | Return cs =>
      match project_all cs with
      | Return _ => []
      | Raise e => [(ERROR, MsgErrorListing e)]
      end
  | Raise e => [(ERROR, MsgErrorListing e)]
  end.

Definition line_entry (c : Container.t) : Startup.entry :=
  let '(name, id, status) := line_of c in
  Startup.Noted INFO (Startup.MsgContainerLine name id status).

(** What [main] reports for the outcome of a creation request. *)
Definition report_of (r : outcome Container.t) : option string :=
  match r with
  | Return container =>
      if String.eqb (Container.id container) "" then None
      else Some (Container.id container)
  | Raise _ => None
  end.

(** The record a lifecycle method logs for an exception: the container was
    not found, or, with the message of the method, anything else. *)
Definition failure_record (container_id : string)
    (other : string → exn → message) (e : exn) : log_record :=
  (ERROR, if isinstance e NotFound then MsgContainerNotFound container_id
          else other container_id e).

Ltac unfold_p :=
  unfold Startup.catch, Startup.note, Startup.fail, Startup.call,
    Startup.run_inner, Startup.getitem,
    mbind, Startup.P_mbind, Startup.P_bind,
    mret, Startup.P_mret, Startup.P_ret in *.

(** * Properties *)

(** ** Exceptions and handlers *)

Lemma isinstance_Exception (e : exn) : isinstance e Exception = true.
Proof. destruct e; reflexivity. Qed.

Lemma isinstance_refl (e : exn) : isinstance e e = true.
Proof. destruct e; reflexivity. Qed.

Lemma isinstance_FileNotFoundError (e : exn) :
  isinstance e FileNotFoundError = true ↔ e = FileNotFoundError.
Proof. split; [destruct e; cbv; congruence | intros ->; reflexivity]. Qed.

Lemma isinstance_JSONDecodeError (e : exn) :
  isinstance e JSONDecodeError = true ↔ e = JSONDecodeError.
Proof. split; [destruct e; cbv; congruence | intros ->; reflexivity]. Qed.

(** The handlers [except NotFound] / [except Exception] of the lifecycle
    methods: either clause takes the exception. *)
Ltac handled_by e :=
  destruct (isinstance e NotFound); simpl;
  [|rewrite isinstance_Exception; simpl].

(** Goals of the shape [engine _ = _ ∧ trace _ = _ ∧ method _ = (_, _)]
    once the method has been run: the world is read off the last
    conjunct. *)
Ltac same_world :=
  split; [|split]; [| |reflexivity]; simpl;
  [reflexivity | by rewrite <- ?app_assoc].

(** ** Strings *)

Lemma str_take_length (n : nat) (s : string) :
  String.length (str_take n s) = Nat.min n (String.length s).
Proof.
  revert s; induction n as [|n IH]; intros [|c s]; simpl; auto.
Qed.




(** ** Truth values of the image field *)

Lemma image_missing_or_empty_falsy (d : gmap string value) :
  image_missing_or_empty d → truthy (dict_get d "image") = false.
Proof. unfold dict_get. intros [-> | ->]; reflexivity. Qed.

Lemma image_nonempty_truthy (d : gmap string value) (s : string) :
  d !! "image" = Some (VStr s) → s ≠ "" → truthy (dict_get d "image") = true.
Proof.
  unfold dict_get. intros -> Hs. simpl.
  destruct (String.eqb_spec s ""); [contradiction | reflexivity].
Qed.

(** ** The requests in a trace *)

Lemma run_requests_app (t u : list event) :
  run_requests (t ++ u) = run_requests t ++ run_requests u.
Proof. apply omap_app. Qed.

Section Deploy.
Context {S : Type} (client : DockerClient S).
Import PodManagerController.

(** Without a usable image nothing is asked of the engine. *)
Lemma deploy_container_no_image (d : gmap string value) (w : world S) :
  truthy (dict_get d "image") = false →
  deploy_container client (VDict d) w =
    (Return None,
     {| engine := engine w; trace := trace w;
        records := records w ++ [(ERROR, MsgImageNotSpecified)] |}).
Proof.
  intros H. unfold deploy_container. unfold_m. rewrite H. reflexivity.
Qed.

(** With an image, the image is pulled, then the container is created,
    whatever the pull answered; the result follows the creation alone. *)
Lemma deploy_container_image (d : gmap string value) (w : world S) :
  truthy (dict_get d "image") = true →
  ∃ pull_r s1 run_r s2,
    images_pull client (dict_get d "image") (engine w) = (pull_r, s1) ∧
    containers_run client (container_config_of d) s1 = (run_r, s2) ∧
    deploy_container client (VDict d) w =
      (Return (deployed_id run_r),
       {| engine := s2;
          trace := trace w ++ [EvPull (dict_get d "image") pull_r;
                               EvRun (container_config_of d) run_r];
          records := records w ++
                     deploy_records (dict_get d "image") pull_r
                       (container_config_of d) run_r |}).
Proof.
  intros H.
  destruct (images_pull client (dict_get d "image") (engine w))
    as [pull_r s1] eqn:Hpull.
  destruct (containers_run client (container_config_of d) s1)
    as [run_r s2] eqn:Hrun.
  exists pull_r, s1, run_r, s2.
  unfold deploy_container, deploy_records. unfold_m.
  rewrite H. simpl. rewrite Hpull.
  destruct pull_r as [[]|e]; simpl; [|rewrite isinstance_Exception; simpl];
    rewrite Hrun; destruct run_r as [c|e']; simpl;
    try (destruct (isinstance e' APIError); simpl);
    try rewrite isinstance_Exception; simpl;
    rewrite <- ?(assoc_L (++)); simpl; repeat split; reflexivity.
Qed.

End Deploy.

(** ** deploy_container *)

Section DeployClaims.
Context {S : Type} (client : DockerClient S).
Import PodManagerController.

(** C1. With a non-empty image in the configuration, [deploy_container]
    returns the identifier of the container the engine created, whole and
    unchanged, when the creation request returns; when that request raises,
    whatever the exception, it returns [None]. *)
Theorem deploy_container_returns_engine_id
    (d : gmap string value) (w : world S) :
  truthy (dict_get d "image") = true →
  ∃ pull_r s1 run_r w',
    images_pull client (dict_get d "image") (engine w) = (pull_r, s1) ∧
    containers_run client (container_config_of d) s1 = (run_r, engine w') ∧
    deploy_container client (VDict d) w =
      (match run_r with
       | Return container => Return (Some (Container.id container))
       | Raise _ => Return None
       end, w').
Proof.
  intros H.
  destruct (deploy_container_image client d w H)
    as (pull_r & s1 & run_r & s2 & Hpull & Hrun & Hd).
  eexists pull_r, s1, run_r, _. split; [exact Hpull|].
  split; [|rewrite Hd; destruct run_r; reflexivity]. exact Hrun.
Qed.

(** C2. A configuration whose image is missing or empty returns [None]
    without any request to the engine: the engine and the trace are as
    before.  Conversely, a configuration whose image is not empty always
    has its creation request issued, exactly once, whatever else the
    configuration holds and whatever the engine answers to the pull. *)
Theorem deploy_container_requires_image (d : gmap string value) (w : world S) :
  (image_missing_or_empty d →
   deploy_container client (VDict d) w =
     (Return None,
      {| engine := engine w; trace := trace w;
         records := records w ++ [(ERROR, MsgImageNotSpecified)] |})) ∧
  (truthy (dict_get d "image") = true →
   ∃ r w', deploy_container client (VDict d) w = (r, w') ∧
     run_requests (trace w') =
       run_requests (trace w) ++ [container_config_of d]).
Proof.
  split.
  - intros H. apply deploy_container_no_image.
    by apply image_missing_or_empty_falsy.
  - intros H.
    destruct (deploy_container_image client d w H)
      as (pull_r & s1 & run_r & s2 & _ & _ & Hd).
    eexists _, _. split; [exact Hd|]. simpl.
    rewrite run_requests_app. reflexivity.
Qed.

(** C7. When the pull of the image raises, the creation request is issued
    all the same, right after it, and the result is the one the creation
    gives: the identifier if it returns. *)
Theorem deploy_container_pull_failure_not_fatal
    (d : gmap string value) (w : world S) (e : exn) (s1 : S) :
  truthy (dict_get d "image") = true →
  images_pull client (dict_get d "image") (engine w) = (Raise e, s1) →
  ∃ run_r w',
    containers_run client (container_config_of d) s1 = (run_r, engine w') ∧
    trace w' = trace w ++ [EvPull (dict_get d "image") (Raise e);
                           EvRun (container_config_of d) run_r] ∧
    deploy_container client (VDict d) w = (Return (deployed_id run_r), w').
Proof.
  intros H Hpull.
  destruct (deploy_container_image client d w H)
    as (pull_r & s1' & run_r & s2 & Hpull' & Hrun & Hd).
  rewrite Hpull in Hpull'. injection Hpull' as <- <-.
  eexists run_r, _. split; [|split; [|exact Hd]]; [exact Hrun | reflexivity].
Qed.

End DeployClaims.

Lemma deploy_container_returns_engine_id_witness :
  truthy (dict_get Fixture.app1_config "image") = true ∧
  ∃ pull_r s1 run_r w',
    images_pull Fixture.client (dict_get Fixture.app1_config "image")
      (engine Fixture.fresh) = (pull_r, s1) ∧
    containers_run Fixture.client
      (PodManagerController.container_config_of Fixture.app1_config) s1 =
      (run_r, engine w') ∧
    PodManagerController.deploy_container Fixture.client
      (VDict Fixture.app1_config) Fixture.fresh =
      (match run_r with
       | Return container => Return (Some (Container.id container))
       | Raise _ => Return None
       end, w').
Proof.
  split; [reflexivity|].
  apply deploy_container_returns_engine_id. reflexivity.
Defined.

Lemma deploy_container_requires_image_witness :
  (image_missing_or_empty Fixture.nameless_config ∧
   PodManagerController.deploy_container Fixture.client
     (VDict Fixture.nameless_config) Fixture.fresh =
     (Return None,
      {| engine := []; trace := [];
         records := [(ERROR, MsgImageNotSpecified)] |})) ∧
  (truthy (dict_get Fixture.locked_config "image") = true ∧
   ∃ r w', PodManagerController.deploy_container Fixture.client
             (VDict Fixture.locked_config) Fixture.fresh = (r, w') ∧
     run_requests (trace w') =
       [PodManagerController.container_config_of Fixture.locked_config]).
Proof.
  assert (Hm : image_missing_or_empty Fixture.nameless_config)
    by (left; reflexivity).
  assert (Ht : truthy (dict_get Fixture.locked_config "image") = true)
    by reflexivity.
  split; split; [exact Hm | | exact Ht |].
  - exact (proj1 (deploy_container_requires_image Fixture.client
                    Fixture.nameless_config Fixture.fresh) Hm).
  - exact (proj2 (deploy_container_requires_image Fixture.client
                    Fixture.locked_config Fixture.fresh) Ht).
Defined.

Lemma deploy_container_pull_failure_not_fatal_witness :
  truthy (dict_get Fixture.dev_config "image") = true ∧
  images_pull Fixture.client (dict_get Fixture.dev_config "image")
    (engine Fixture.fresh) = (Raise NotFound, []) ∧
  ∃ run_r w',
    containers_run Fixture.client
      (PodManagerController.container_config_of Fixture.dev_config) [] =
      (run_r, engine w') ∧
    trace w' =
      [EvPull (dict_get Fixture.dev_config "image") (Raise NotFound);
       EvRun (PodManagerController.container_config_of Fixture.dev_config)
         run_r] ∧
    PodManagerController.deploy_container Fixture.client
      (VDict Fixture.dev_config) Fixture.fresh =
      (Return (deployed_id run_r), w').
Proof.
  split; [reflexivity|]. split; [reflexivity|].
  apply (deploy_container_pull_failure_not_fatal Fixture.client
           Fixture.dev_config Fixture.fresh NotFound []); reflexivity.
Defined.

(** ** list_containers *)

Section ListClaims.
Context {S : Type} (client : DockerClient S).
Import PodManagerController.

(** The loop appends the projection of each container, in order, and stops
    at the first container whose image cannot be read. *)
Lemma list_containers_loop_project (containers : list Container.t)
    (container_info : list (gmap string value)) (w : world S) :
  list_containers_loop containers container_info w =
    (match project_all containers with
     | Return infos => Return (container_info ++ infos)
     | Raise e => Raise e
     end, w).
Proof.
  revert container_info.
  induction containers as [|c cs IH]; intros acc; simpl.
  - unfold_m. by rewrite app_nil_r.
  - unfold container_info_of, container_image. unfold_m.
    destruct (Container.image c) as [[img|]|e]; try reflexivity.
    rewrite IH. destruct (project_all cs); [|reflexivity].
    by rewrite <- app_assoc.
Qed.

Lemma list_containers_returns (all_containers : option bool) (w : world S)
    (containers : list Container.t) (s1 : S) :
  containers_list client (default false all_containers) (engine w) =
    (Return containers, s1) →
  list_containers client all_containers w =
    match project_all containers with
    | Return infos =>
        (Return infos,
         {| engine := s1;
            trace := trace w ++ [EvList (default false all_containers)
                                   (Return containers)];
            records := records w |})
    | Raise e =>
        (Return [],
         {| engine := s1;
            trace := trace w ++ [EvList (default false all_containers)
                                   (Return containers)];
            records := records w ++ [(ERROR, MsgErrorListing e)] |})
    end.
Proof.
  intros H. unfold list_containers. unfold_m. rewrite H.
  rewrite list_containers_loop_project.
  destruct (project_all containers); simpl; [reflexivity|].
  by rewrite isinstance_Exception.
Qed.

(** The projection gives dictionaries exactly when every image can be read,
    and then one for each container, built from the image read. *)
Lemma project_all_has_image (cs : list Container.t) :
  if forallb has_image cs
  then ∃ infos, project_all cs = Return infos ∧
         Forall2 (λ c info, ∃ img, Container.image c = Return (Some img) ∧
                                   info = container_info_with c img)
                 cs infos
  else ∃ e, project_all cs = Raise e.
Proof.
  induction cs as [|c cs IH]; simpl.
  - exists []. by split.
  - unfold has_image at 1.
    destruct (Container.image c) as [[img|]|e] eqn:Hc; simpl; eauto.
    destruct (forallb has_image cs).
    + destruct IH as (infos & -> & HF). eexists. split; [reflexivity|].
      constructor; eauto.
    + destruct IH as (e & ->). eauto.
Qed.

Lemma container_info_with_fields (c : Container.t) (img : Image.t) :
  container_info_with c img !! "id" =
    Some (VStr (str_take 12 (Container.id c))) ∧
  container_info_with c img !! "name" = Some (VStr (Container.name c)) ∧
  container_info_with c img !! "status" = Some (VStr (Container.status c)) ∧
  container_info_with c img !! "image" =
    Some (VStr (match Image.tags img with
                | tag :: _ => tag
                | [] => str_take 12 (Image.id img)
                end)).
Proof. unfold container_info_with. repeat split; by simplify_map_eq. Qed.

(** C4, as the code has it.  When the engine's list request returns and the
    image of every container can be read, [list_containers] returns one
    dictionary per container, in the engine's order; its image entry is the
    first tag of the container's image when the image has a tag, and the
    first 12 characters of the image's identifier when it has none.  When
    the image of some container cannot be read, the exception is taken by
    the handler of the method and the result is the empty list: no
    container is reported, not even those before it. *)
Theorem list_containers_projects_in_order (all_containers : option bool)
    (w : world S) (containers : list Container.t) (s1 : S) :
  containers_list client (default false all_containers) (engine w) =
    (Return containers, s1) →
  ∃ infos w',
    list_containers client all_containers w = (Return infos, w') ∧
    (forallb has_image containers = true →
     length infos = length containers ∧
     ∀ (i : nat) (c : Container.t), containers !! i = Some c →
       ∃ (info : gmap string value) (img : Image.t),
         infos !! i = Some info ∧
         Container.image c = Return (Some img) ∧
         info !! "name" = Some (VStr (Container.name c)) ∧
         info !! "status" = Some (VStr (Container.status c)) ∧
         (∀ tag rest, Image.tags img = tag :: rest →
            info !! "image" = Some (VStr tag)) ∧
         (Image.tags img = [] →
            info !! "image" = Some (VStr (str_take 12 (Image.id img))))) ∧
    (forallb has_image containers = false → infos = []).
Proof.
  intros H. rewrite (list_containers_returns all_containers w containers s1 H).
  pose proof (project_all_has_image containers) as Hp.
  destruct (forallb has_image containers).
  - destruct Hp as (infos & -> & HF). eexists _, _. split; [reflexivity|].
    split; [|done]. intros _.
    split; [symmetry; by eapply Forall2_length|].
    intros i c Hc.
    destruct (Forall2_lookup_l _ _ _ _ _ HF Hc)
      as (info & Hi & img & Himg & ->).
    exists (container_info_with c img), img.
    destruct (container_info_with_fields c img) as (_ & Hn & Hs & Hg).
    split; [exact Hi|]. split; [exact Himg|].
    split; [exact Hn|]. split; [exact Hs|]. split.
    + intros tag rest Ht. by rewrite Hg, Ht.
    + intros Ht. by rewrite Hg, Ht.
  - destruct Hp as (e & ->). eexists _, _. split; [reflexivity|].
    split; [done|]. by intros _.
Qed.

(** C8. When the engine's list request raises, whatever the exception,
    [list_containers] returns the empty list and raises nothing. *)
Theorem list_containers_failure_empty (all_containers : option bool)
    (w : world S) (e : exn) (s1 : S) :
  containers_list client (default false all_containers) (engine w) =
    (Raise e, s1) →
  list_containers client all_containers w =
    (Return [],
     {| engine := s1;
        trace := trace w ++ [EvList (default false all_containers) (Raise e)];
        records := records w ++ [(ERROR, MsgErrorListing e)] |}).
Proof.
  intros H. unfold list_containers. unfold_m. rewrite H. simpl.
  by rewrite isinstance_Exception.
Qed.


End ListClaims.

(** C4 as stated fails: the engine returns two containers, the image of the
    second has been deleted since, and [list_containers] returns no record
    at all. *)
Lemma list_containers_drops_all_records :
  containers_list Fixture.client (default false (Some true))
    (engine Fixture.haunted) =
    (Return [Fixture.nginx; Fixture.stale], [Fixture.nginx; Fixture.stale]) ∧
  fst (PodManagerController.list_containers Fixture.client (Some true)
         Fixture.haunted) = Return [] ∧
  ¬ (∀ (client : DockerClient Fixture.state) (all_containers : option bool)
       (w : world Fixture.state) (containers : list Container.t)
       (s1 : Fixture.state),
       containers_list client (default false all_containers) (engine w) =
         (Return containers, s1) →
       ∃ infos w',
         PodManagerController.list_containers client all_containers w =
           (Return infos, w') ∧
         length infos = length containers).
Proof.
  assert (Hl : containers_list Fixture.client (default false (Some true))
                 (engine Fixture.haunted) =
               (Return [Fixture.nginx; Fixture.stale],
                [Fixture.nginx; Fixture.stale])) by reflexivity.
  assert (Hr : fst (PodManagerController.list_containers Fixture.client
                      (Some true) Fixture.haunted) = Return [])
    by reflexivity.
  split; [exact Hl|]. split; [exact Hr|].
  intros Hall.
  destruct (Hall Fixture.client (Some true) Fixture.haunted _ _ Hl)
    as (infos & w' & Heq & Hlen).
  rewrite Heq in Hr. simpl in Hr. injection Hr as ->. discriminate Hlen.
Qed.

(** A container the engine names no image for has the same effect: reading
    an attribute of [None] raises [AttributeError], the handler logs it and
    the method returns the empty list. *)
Example list_containers_without_image :
  PodManagerController.list_containers Fixture.client (Some true)
    {| engine := [Fixture.nginx; Fixture.imageless]; trace := [];
       records := [] |} =
    (Return [],
     {| engine := [Fixture.nginx; Fixture.imageless];
        trace := [EvList true (Return [Fixture.nginx; Fixture.imageless])];
        records := [(ERROR, MsgErrorListing AttributeError)] |}).
Proof. reflexivity. Qed.

Lemma list_containers_projects_in_order_witness :
  containers_list Fixture.client (default false (Some true))
    (engine Fixture.populated) =
    (Return [Fixture.nginx; Fixture.orphan], [Fixture.nginx; Fixture.orphan]) ∧
  ∃ infos w',
    PodManagerController.list_containers Fixture.client (Some true)
      Fixture.populated = (Return infos, w') ∧
    (forallb has_image [Fixture.nginx; Fixture.orphan] = true →
     length infos = 2%nat ∧
     ∀ (i : nat) (c : Container.t),
       [Fixture.nginx; Fixture.orphan] !! i = Some c →
       ∃ (info : gmap string value) (img : Image.t),
         infos !! i = Some info ∧
         Container.image c = Return (Some img) ∧
         info !! "name" = Some (VStr (Container.name c)) ∧
         info !! "status" = Some (VStr (Container.status c)) ∧
         (∀ tag rest, Image.tags img = tag :: rest →
            info !! "image" = Some (VStr tag)) ∧
         (Image.tags img = [] →
            info !! "image" = Some (VStr (str_take 12 (Image.id img))))) ∧
    (forallb has_image [Fixture.nginx; Fixture.orphan] = false →
     infos = []).
Proof.
  split; [reflexivity|].
  apply (list_containers_projects_in_order Fixture.client (Some true)
           Fixture.populated [Fixture.nginx; Fixture.orphan]
           [Fixture.nginx; Fixture.orphan]).
  reflexivity.
Defined.

Lemma list_containers_failure_empty_witness :
  containers_list Fixture.offline (default false None)
    (engine Fixture.fresh) = (Raise DockerException, []) ∧
  PodManagerController.list_containers Fixture.offline None Fixture.fresh =
    (Return [],
     {| engine := [];
        trace := [EvList false (Raise DockerException)];
        records := [(ERROR, MsgErrorListing DockerException)] |}).
Proof.
  split; [reflexivity|].
  apply (list_containers_failure_empty Fixture.offline None Fixture.fresh
           DockerException []).
  reflexivity.
Defined.


(** ** stop_container, remove_container, get_container_logs *)

Section LifecycleClaims.
Context {S : Type} (client : DockerClient S) (rt : Runtime).
Import PodManagerController.

(** C5. [stop_container] and [remove_container] never raise and return a
    boolean.  It is [True] exactly when the lookup of the container returns
    and the stop, or the removal, requested on that container returns too;
    the removal is requested with the caller's [force], [False] when the
    caller gave none.  A lookup that raises, whether [NotFound] or anything
    else, and a stop or removal that raises all return the same [False]. *)
Theorem stop_remove_boolean (container_id : string) (force : option bool)
    (w : world S) :
  (∃ get_r s1,
     containers_get client container_id (engine w) = (get_r, s1) ∧
     match get_r with
     | Return c =>
         ∃ stop_r w',
           container_stop client c s1 = (stop_r, engine w') ∧
           trace w' = trace w ++ [EvGet container_id (Return c);
                                  EvStop c stop_r] ∧
           stop_container client container_id w =
             (Return (succeeded stop_r), w')
     | Raise e =>
         ∃ w',
           engine w' = s1 ∧
           trace w' = trace w ++ [EvGet container_id (Raise e)] ∧
           stop_container client container_id w = (Return false, w')
     end) ∧
  (∃ get_r s1,
     containers_get client container_id (engine w) = (get_r, s1) ∧
     match get_r with
     | Return c =>
         ∃ remove_r w',
           container_remove client c (default false force) s1 =
             (remove_r, engine w') ∧
           trace w' = trace w ++ [EvGet container_id (Return c);
                                  EvRemove c (default false force) remove_r] ∧
           remove_container client container_id force w =
             (Return (succeeded remove_r), w')
     | Raise e =>
         ∃ w',
           engine w' = s1 ∧
           trace w' = trace w ++ [EvGet container_id (Raise e)] ∧
           remove_container client container_id force w = (Return false, w')
     end).
Proof.
  split.
  - destruct (containers_get client container_id (engine w))
      as [get_r s1] eqn:Hget.
    exists get_r, s1. split; [reflexivity|].
    unfold stop_container. unfold_m. rewrite Hget.
    destruct get_r as [c|e]; simpl; [|handled_by e; eexists; same_world].
    destruct (container_stop client c s1) as [stop_r s2] eqn:Hstop.
    destruct stop_r as [[]|e]; simpl;
      [eexists (Return ()), _ | handled_by e; eexists (Raise e), _];
      same_world.
  - destruct (containers_get client container_id (engine w))
      as [get_r s1] eqn:Hget.
    exists get_r, s1. split; [reflexivity|].
    unfold remove_container. unfold_m. rewrite Hget.
    destruct get_r as [c|e]; simpl; [|handled_by e; eexists; same_world].
    destruct (container_remove client c (default false force) s1)
      as [remove_r s2] eqn:Hremove.
    destruct remove_r as [[]|e]; simpl;
      [eexists (Return ()), _ | handled_by e; eexists (Raise e), _];
      same_world.
Qed.

(** C9. [get_container_logs] never raises.  It looks the container up by
    the identifier or name given, asks the engine for the last [tail] lines
    of its output, 100 when the caller gave no [tail], and returns the
    bytes it gets decoded as text.  When the lookup, the logs request or
    the decoding raises, whatever the exception, it returns [None]. *)
Theorem get_container_logs_tail_or_none (container_id : string)
    (tail : option Z) (w : world S) :
  ∃ get_r s1,
    containers_get client container_id (engine w) = (get_r, s1) ∧
    match get_r with
    | Return c =>
        ∃ logs_r w',
          container_logs client c (default 100 tail) s1 =
            (logs_r, engine w') ∧
          trace w' = trace w ++ [EvGet container_id (Return c);
                                 EvLogs c (default 100 tail) logs_r] ∧
          get_container_logs client rt container_id tail w =
            (Return (logs_text rt logs_r), w')
    | Raise e =>
        ∃ w',
          engine w' = s1 ∧
          trace w' = trace w ++ [EvGet container_id (Raise e)] ∧
          get_container_logs client rt container_id tail w =
            (Return None, w')
    end.
Proof.
  destruct (containers_get client container_id (engine w))
    as [get_r s1] eqn:Hget.
  exists get_r, s1. split; [reflexivity|].
  unfold get_container_logs, logs_text. unfold_m. rewrite Hget.
  destruct get_r as [c|e]; simpl; [|handled_by e; eexists; same_world].
  destruct (container_logs client c (default 100 tail) s1)
    as [logs_r s2] eqn:Hlogs.
  destruct logs_r as [raw|e]; simpl.
  - destruct (bytes_decode_utf8 rt raw) as [text|e] eqn:Hdec; simpl;
      [|handled_by e]; eexists (Return raw), _; rewrite Hdec; same_world.
  - handled_by e; eexists (Raise e), _; same_world.
Qed.

End LifecycleClaims.

(** ** load_deployments_from_file *)

Section LoadClaims.
Context {S : Type} (rt : Runtime).

(** The two handlers of the function, as one step on the world. *)
Lemma load_deployments_from_file_raise (filepath : string) (w : world S)
    (e : exn) :
  (open_ rt filepath = Raise e ∨
   ∃ f, open_ rt filepath = Return f ∧ json_load rt f = Raise e) →
  load_deployments_from_file rt filepath w =
    if isinstance e FileNotFoundError then
      (Return [], {| engine := engine w; trace := trace w;
                     records := records w ++
                                [(WARNING, MsgFileNotFound filepath)] |})
    else if isinstance e JSONDecodeError then
      (Return [], {| engine := engine w; trace := trace w;
                     records := records w ++ [(ERROR, MsgInvalidJSON e)] |})
    else (Raise e, w).
Proof.
  unfold load_deployments_from_file. unfold_m.
  intros [-> | (f & -> & ->)]; simpl;
    destruct (isinstance e FileNotFoundError);
    destruct (isinstance e JSONDecodeError); reflexivity.
Qed.

Lemma load_deployments_from_file_data (filepath : string) (w : world S)
    (f : list Byte.byte) (data : value) :
  open_ rt filepath = Return f → json_load rt f = Return data →
  load_deployments_from_file rt filepath w =
    (Return (match data with VList l => l | _ => [data] end), w).
Proof.
  unfold load_deployments_from_file. unfold_m. by intros -> ->.
Qed.

(** C3, as the code has it.  A file holding one JSON object gives the list
    of that object alone; a file holding a JSON array gives the array's
    elements, as many and in the same order; a missing file and a file that
    is not well-formed JSON give the empty list.  The function does raise,
    though: an exception of opening or decoding the file that is neither
    [FileNotFoundError] nor [JSONDecodeError] reaches the caller, and
    nothing else does. *)
Theorem load_deployments_from_file_outcomes (filepath : string)
    (w : world S) :
  (∀ f d, open_ rt filepath = Return f → json_load rt f = Return (VDict d) →
     load_deployments_from_file rt filepath w = (Return [VDict d], w)) ∧
  (∀ f l, open_ rt filepath = Return f → json_load rt f = Return (VList l) →
     load_deployments_from_file rt filepath w = (Return l, w)) ∧
  (open_ rt filepath = Raise FileNotFoundError →
     ∃ w', load_deployments_from_file rt filepath w = (Return [], w')) ∧
  (∀ f, open_ rt filepath = Return f → json_load rt f = Raise JSONDecodeError →
     ∃ w', load_deployments_from_file rt filepath w = (Return [], w')) ∧
  (∀ e, (∃ w', load_deployments_from_file rt filepath w = (Raise e, w')) ↔
        e ≠ FileNotFoundError ∧ e ≠ JSONDecodeError ∧
        (open_ rt filepath = Raise e ∨
         ∃ f, open_ rt filepath = Return f ∧ json_load rt f = Raise e)).
Proof.
  split; [|split; [|split; [|split]]].
  - intros f d Ho Hj.
    by rewrite (load_deployments_from_file_data filepath w f (VDict d)).
  - intros f l Ho Hj.
    by rewrite (load_deployments_from_file_data filepath w f (VList l)).
  - intros Ho.
    rewrite (load_deployments_from_file_raise filepath w FileNotFoundError)
      by (by left).
    simpl. eauto.
  - intros f Ho Hj.
    rewrite (load_deployments_from_file_raise filepath w JSONDecodeError)
      by (right; eauto).
    simpl. eauto.
  - intros e. split.
    + intros [w' Hl].
      destruct (open_ rt filepath) as [f|e0] eqn:Ho.
      * destruct (json_load rt f) as [data|e0] eqn:Hj.
        { rewrite (load_deployments_from_file_data filepath w f data)
            in Hl by done. discriminate. }
        rewrite (load_deployments_from_file_raise filepath w e0)
          in Hl by (right; eauto).
        destruct (isinstance e0 FileNotFoundError) eqn:H1; [discriminate|].
        destruct (isinstance e0 JSONDecodeError) eqn:H2; [discriminate|].
        injection Hl as -> _.
        split; [|split]; [| |right; eauto].
        -- intros ->. by rewrite isinstance_refl in H1.
        -- intros ->. by rewrite isinstance_refl in H2.
      * rewrite (load_deployments_from_file_raise filepath w e0)
          in Hl by (by left).
        destruct (isinstance e0 FileNotFoundError) eqn:H1; [discriminate|].
        destruct (isinstance e0 JSONDecodeError) eqn:H2; [discriminate|].
        injection Hl as -> _.
        split; [|split]; [| |by left].
        -- intros ->. by rewrite isinstance_refl in H1.
        -- intros ->. by rewrite isinstance_refl in H2.
    + intros (H1 & H2 & Hr).
      rewrite (load_deployments_from_file_raise filepath w e) by exact Hr.
      destruct (isinstance e FileNotFoundError) eqn:E1.
      { by apply isinstance_FileNotFoundError in E1. }
      destruct (isinstance e JSONDecodeError) eqn:E2.
      { by apply isinstance_JSONDecodeError in E2. }
      eauto.
Qed.

End LoadClaims.

(** C3 as stated fails: opening a directory raises [IsADirectoryError],
    which no handler of [load_deployments_from_file] takes, so the caller
    gets the exception. *)
Lemma load_deployments_from_file_can_raise :
  load_deployments_from_file Fixture.runtime "/config" Fixture.fresh =
    (Raise IsADirectoryError, Fixture.fresh) ∧
  ¬ (∀ (rt : Runtime) (filepath : string) (w : world Fixture.state),
       ∃ l w', load_deployments_from_file rt filepath w = (Return l, w')).
Proof.
  assert (H : load_deployments_from_file Fixture.runtime "/config"
                Fixture.fresh = (Raise IsADirectoryError, Fixture.fresh))
    by reflexivity.
  split; [exact H|].
  intros Hall.
  destruct (Hall Fixture.runtime "/config" Fixture.fresh) as (l & w' & Hl).
  rewrite H in Hl. discriminate.
Qed.

Lemma load_deployments_from_file_outcomes_witness :
  (open_ Fixture.runtime "/config/single.json" =
     Return (list_byte_of_string Fixture.text_single) ∧
   json_load Fixture.runtime (list_byte_of_string Fixture.text_single) =
     Return (VDict Fixture.app1_config) ∧
   load_deployments_from_file Fixture.runtime "/config/single.json"
     Fixture.fresh = (Return [VDict Fixture.app1_config], Fixture.fresh)) ∧
  (open_ Fixture.runtime "/config/deployments.json" =
     Return (list_byte_of_string Fixture.text_many) ∧
   json_load Fixture.runtime (list_byte_of_string Fixture.text_many) =
     Return (VList [Fixture.app1; Fixture.app2]) ∧
   load_deployments_from_file Fixture.runtime "/config/deployments.json"
     Fixture.fresh = (Return [Fixture.app1; Fixture.app2], Fixture.fresh)) ∧
  (open_ Fixture.runtime "/config/absent.json" = Raise FileNotFoundError ∧
   ∃ w', load_deployments_from_file Fixture.runtime "/config/absent.json"
           Fixture.fresh = (Return [], w')) ∧
  (open_ Fixture.runtime "/config/broken.json" =
     Return (list_byte_of_string Fixture.text_broken) ∧
   json_load Fixture.runtime (list_byte_of_string Fixture.text_broken) =
     Raise JSONDecodeError ∧
   ∃ w', load_deployments_from_file Fixture.runtime "/config/broken.json"
           Fixture.fresh = (Return [], w')).
Proof.
  pose proof (load_deployments_from_file_outcomes Fixture.runtime
                "/config/single.json" Fixture.fresh) as (H1 & _).
  pose proof (load_deployments_from_file_outcomes Fixture.runtime
                "/config/deployments.json" Fixture.fresh) as (_ & H2 & _).
  pose proof (load_deployments_from_file_outcomes Fixture.runtime
                "/config/absent.json" Fixture.fresh) as (_ & _ & H3 & _).
  pose proof (load_deployments_from_file_outcomes Fixture.runtime
                "/config/broken.json" Fixture.fresh) as (_ & _ & _ & H4 & _).
  split; [|split; [|split]].
  - split; [reflexivity|]. split; [reflexivity|].
    apply (H1 (list_byte_of_string Fixture.text_single)); reflexivity.
  - split; [reflexivity|]. split; [reflexivity|].
    apply (H2 (list_byte_of_string Fixture.text_many)); reflexivity.
  - split; [reflexivity|]. apply H3; reflexivity.
  - split; [reflexivity|]. split; [reflexivity|].
    apply (H4 (list_byte_of_string Fixture.text_broken)); reflexivity.
Defined.

(** ** The deployment loop of main *)

Section MainClaims.
Context {S : Type} (client : DockerClient S).
Import PodManagerController.

Lemma processed_app (rs rs' : list log_record) :
  processed (rs ++ rs') = processed rs ++ processed rs'.
Proof. apply omap_app. Qed.

Lemma applications_app (rs rs' : list log_record) :
  applications (rs ++ rs') = applications rs ++ applications rs'.
Proof. apply omap_app. Qed.

Lemma reported_app (rs rs' : list log_record) :
  reported (rs ++ rs') = reported rs ++ reported rs'.
Proof. apply omap_app. Qed.

(** The records of one deployment read as one application and nothing of
    [main]'s. *)
Lemma deploy_records_readings (image : value) (pull_r : outcome ())
    (kwargs : gmap string value) (run_r : outcome Container.t) :
  processed (deploy_records image pull_r kwargs run_r) = [] ∧
  reported (deploy_records image pull_r kwargs run_r) = [] ∧
  applications (deploy_records image pull_r kwargs run_r) = [Some image].
Proof.
  unfold deploy_records.
  destruct pull_r as [[]|e], run_r as [c|e']; simpl;
    try destruct (isinstance e' APIError); auto.
Qed.

(** On a dictionary [deploy_container] always returns, and what it leaves
    in the trace and the log depends on the dictionary alone. *)
Lemma deploy_container_dict (d : gmap string value) (w : world S) :
  ∃ r w' evs,
    deploy_container client (VDict d) w = (Return r, w') ∧
    trace w' = trace w ++ evs ∧
    forallb is_deploy_event evs = true ∧
    run_requests evs = option_list (requested_config d) ∧
    processed (records w') = processed (records w) ∧
    reported (records w') = reported (records w) ∧
    applications (records w') = applications (records w) ++ [usable_image d].
Proof.
  unfold requested_config, usable_image.
  destruct (truthy (dict_get d "image")) eqn:H.
  - destruct (deploy_container_image client d w H)
      as (pull_r & s1 & run_r & s2 & _ & _ & Hd).
    destruct (deploy_records_readings (dict_get d "image") pull_r
                (container_config_of d) run_r) as (Hp & Hr & Ha).
    eexists _, _, _. split; [exact Hd|]. simpl.
    split; [reflexivity|]. split; [reflexivity|]. split; [reflexivity|].
    rewrite processed_app, reported_app, applications_app.
    rewrite Hp, Hr, Ha, ?app_nil_r. by simpl.
  - eexists _, _, []. split; [by apply deploy_container_no_image|]. simpl.
    rewrite processed_app, reported_app, applications_app, ?app_nil_r.
    simpl. by rewrite ?app_nil_r.
Qed.

(** C6. On the dictionaries of a deployment file the loop of [main] runs to
    its end, whatever the engine answers.  It announces every entry, in the
    file's order; [deploy_container] is entered once for each, in that
    order; every entry gets one report of its outcome.  The requests it
    sends are pulls and creations only, nothing that stops or removes a
    container, and the creations are those of the entries with an image, one
    each and in order, each built from its own entry alone: no answer of
    the engine to one entry changes what is asked for the next. *)
Theorem main_applies_each_deployment (specs : list (gmap string value))
    (w : world S) :
  ∃ w' evs,
    main_for_deployments client (VDict <$> specs) w = (Return (), w') ∧
    processed (records w') =
      processed (records w) ++ (announced_name <$> specs) ∧
    applications (records w') =
      applications (records w) ++ (usable_image <$> specs) ∧
    length (reported (records w')) =
      (length (reported (records w)) + length specs)%nat ∧
    trace w' = trace w ++ evs ∧
    forallb is_deploy_event evs = true ∧
    run_requests evs = omap requested_config specs.
Proof.
  revert w. induction specs as [|d specs IH]; intros w.
  - exists w, []. simpl. rewrite !app_nil_r. repeat split; lia.
  - cbn [fmap list_fmap main_for_deployments]. unfold_m.
    set (w1 := {| engine := engine w; trace := trace w;
                  records := records w ++
                    [(INFO, MsgProcessing (default (VStr "unnamed")
                                                   (d !! "name")))] |}).
    destruct (deploy_container_dict d w1)
      as (r & w2 & evs & Hd & Ht & Hf & Hq & Hp & Hr & Ha).
    rewrite Hd.
    set (w3 := snd ((if truthy_id r
                     then log INFO (MsgDeploymentSuccessful (default "" r))
                     else log ERROR MsgDeploymentFailed) w2)).
    assert (H3 : (if truthy_id r
                  then log INFO (MsgDeploymentSuccessful (default "" r))
                  else log ERROR MsgDeploymentFailed) w2 = (Return (), w3))
      by (subst w3; destruct (truthy_id r); reflexivity).
    unfold_m. rewrite H3.
    assert (Hw3 : trace w3 = trace w2 ∧
                  processed (records w3) = processed (records w2) ∧
                  applications (records w3) = applications (records w2) ∧
                  length (reported (records w3)) =
                    Datatypes.S (length (reported (records w2)))).
    { subst w3. destruct (truthy_id r); simpl;
        rewrite processed_app, applications_app, reported_app, length_app;
        simpl; rewrite !app_nil_r; repeat split; lia. }
    destruct Hw3 as (Et & Ep & Ea & Er).
    destruct (IH w3) as (w' & evs' & Hm & Ip & Ia & Ir & It & If & Iq).
    exists w', (evs ++ evs'). split; [exact Hm|].
    rewrite Ip, Ia, Ir, It, Et, Ep, Ea, Er, Ht, Hp, Ha, Hr. subst w1. simpl.
    rewrite processed_app, applications_app, reported_app. simpl.
    rewrite !app_nil_r, <- !app_assoc. simpl.
    split; [reflexivity|]. split; [reflexivity|]. split; [lia|].
    split; [reflexivity|].
    rewrite forallb_app, Hf, If, run_requests_app, Hq, Iq.
    split; [reflexivity|]. by destruct (requested_config d).
Qed.

(** An entry of the file that is not an object stops the loop: reading its
    name raises [AttributeError], which [main] does not handle. *)
Lemma main_for_deployments_not_a_dict (v : value) (rest : list value)
    (w : world S) :
  is_dict v = false →
  main_for_deployments client (v :: rest) w = (Raise AttributeError, w).
Proof. by destruct v. Qed.

End MainClaims.

(** ** The unit tests of the repository, on the model *)

Section UnitTests.
Import PodManagerController.

Example test_deploy_container_success :
  let '(container_id, w) :=
    deploy_container
      (Fixture.mock (Fixture.mock_container "abc123def456" "m" "t") [])
      (VDict {[ "image" := VStr "nginx:alpine";
                "name" := VStr "test-nginx" ]})
      Fixture.mock_world in
  container_id = Return (Some "abc123def456") ∧
  length (run_requests (trace w)) = 1%nat.
Proof. vm_compute. split; reflexivity. Qed.

Example test_deploy_container_missing_image :
  let '(container_id, w) :=
    deploy_container
      (Fixture.mock (Fixture.mock_container "abc123def456" "m" "t") [])
      (VDict {[ "name" := VStr "test-container" ]})
      Fixture.mock_world in
  container_id = Return None ∧ run_requests (trace w) = [].
Proof. vm_compute. split; reflexivity. Qed.

Example test_list_containers :
  let c1 := Fixture.mock_container "container1" "nginx" "nginx:alpine" in
  let c2 := Fixture.mock_container "container2" "redis" "redis:alpine" in
  ∃ info1 info2 w,
    list_containers (Fixture.mock c1 [c1; c2]) None Fixture.mock_world =
      (Return [info1; info2], w) ∧
    info1 !! "name" = Some (VStr "nginx") ∧
    info2 !! "name" = Some (VStr "redis").
Proof. eexists _, _, _. split; [reflexivity|]. split; reflexivity. Qed.

Example test_stop_container_success :
  let c := Fixture.mock_container "abc123def456" "m" "t" in
  ∃ w, stop_container (Fixture.mock c []) "test123" Fixture.mock_world =
         (Return true, w) ∧
       trace w = [EvGet "test123" (Return c); EvStop c (Return ())].
Proof. eexists. split; reflexivity. Qed.

Example test_remove_container_success :
  let c := Fixture.mock_container "abc123def456" "m" "t" in
  ∃ w, remove_container (Fixture.mock c []) "test123" None
         Fixture.mock_world = (Return true, w) ∧
       trace w = [EvGet "test123" (Return c); EvRemove c false (Return ())].
Proof. eexists. split; reflexivity. Qed.

Example test_load_single_deployment :
  ∃ d, load_deployments_from_file Fixture.runtime "/config/single.json"
         Fixture.fresh = (Return [VDict d], Fixture.fresh) ∧
       d !! "name" = Some (VStr "app1").
Proof. eexists. split; reflexivity. Qed.

Example test_load_multiple_deployments :
  ∃ d1 d2, load_deployments_from_file Fixture.runtime
             "/config/deployments.json" Fixture.fresh =
             (Return [VDict d1; VDict d2], Fixture.fresh) ∧
           d1 !! "name" = Some (VStr "app1") ∧
           d2 !! "name" = Some (VStr "app2").
Proof. eexists _, _. split; [reflexivity|]. split; reflexivity. Qed.

Example test_load_nonexistent_file :
  fst (load_deployments_from_file Fixture.runtime "/nonexistent/file.json"
         Fixture.fresh) = Return [].
Proof. reflexivity. Qed.

Example test_load_invalid_json :
  fst (load_deployments_from_file Fixture.runtime "/config/broken.json"
         Fixture.fresh) = Return [].
Proof. reflexivity. Qed.

(** The scenario of the specification: a file with [app1] and [app2] leads
    to two creation requests, in that order. *)
Example main_two_deployments :
  let '(r, w) :=
    main_deployments Fixture.client Fixture.runtime Fixture.fresh in
  r = Return () ∧
  run_requests (trace w) =
    [container_config_of Fixture.app1_config;
     container_config_of Fixture.app2_config] ∧
  reported (records w) =
    [Some "4e5f6a7b8c9d000000000000"; Some "4e5f6a7b8c9d000000000001"].
Proof. vm_compute. repeat split; reflexivity. Qed.

(** A first deployment that fails does not keep the second from being
    applied. *)
Example main_continues_after_failure :
  let '(r, w) :=
    main_for_deployments Fixture.client
      [VDict Fixture.locked_config; Fixture.app2] Fixture.fresh in
  r = Return () ∧
  reported (records w) = [None; Some "4e5f6a7b8c9d000000000000"].
Proof. vm_compute. split; reflexivity. Qed.

(** On the engine of the fixture a running container is not removed
    without [force], and both that refusal and an unknown name give
    [False]. *)
Example remove_running_needs_force :
  let w := snd (deploy_container Fixture.client Fixture.app1 Fixture.fresh) in
  fst (remove_container Fixture.client "app1" None w) = Return false ∧
  fst (remove_container Fixture.client "nobody" None w) = Return false ∧
  fst (remove_container Fixture.client "app1" (Some true) w) = Return true.
Proof. vm_compute. repeat split; reflexivity. Qed.

Example get_container_logs_default_tail :
  let w := snd (deploy_container Fixture.client Fixture.app1 Fixture.fresh) in
  ∃ w', get_container_logs Fixture.client Fixture.runtime "app1" None w =
          (Return (Some "ready"), w') ∧
        last (trace w') =
          Some (EvLogs (Fixture.nginx_of "app1") 100
                  (Return (list_byte_of_string "ready"))).
Proof. eexists. split; reflexivity. Qed.

End UnitTests.

(** * Further properties *)

(** ** deploy_container beyond a well-formed configuration *)

Section DeployEdges.
Context {S : Type} (client : DockerClient S).
Import PodManagerController.

(** Reading the image of anything but a dictionary raises inside the
    [try]; the last handler takes it. *)
Lemma deploy_container_no_get (config : value) (w : world S) :
  is_dict config = false →
  deploy_container client config w =
    (Return None,
     {| engine := engine w; trace := trace w;
        records := records w ++
                   [(ERROR, MsgDeployUnexpected AttributeError)] |}).
Proof. destruct config; try discriminate; reflexivity. Qed.

(** X1. A configuration that is not a dictionary has no [get]: the
    [AttributeError] is taken by the last handler, so the method returns
    [None], logs the error as unexpected and asks nothing of the engine. *)
Theorem deploy_container_not_a_dict (config : value) (w : world S) :
  is_dict config = false →
  deploy_container client config w =
    (Return None,
     {| engine := engine w; trace := trace w;
        records := records w ++
                   [(ERROR, MsgDeployUnexpected AttributeError)] |}).
Proof.
  intros H. unfold deploy_container. unfold_m.
  destruct config; try discriminate H; reflexivity.
Qed.

(** X2. [deploy_container] never raises, whatever value it is given and
    whatever the engine does.  Either it asks nothing of the engine and
    returns [None], or it asks for one pull and then one creation, nothing
    else, and returns what the creation gives. *)
Theorem deploy_container_never_raises (config : value) (w : world S) :
  ∃ r w' evs,
    deploy_container client config w = (Return r, w') ∧
    trace w' = trace w ++ evs ∧
    ((evs = [] ∧ r = None ∧ engine w' = engine w) ∨
     ∃ image pull_r kwargs run_r,
       evs = [EvPull image pull_r; EvRun kwargs run_r] ∧
       r = deployed_id run_r).
Proof.
  destruct (is_dict config) eqn:Hd.
  - destruct config as [| | | | | |d]; try discriminate.
    destruct (truthy (dict_get d "image")) eqn:H.
    + destruct (deploy_container_image client d w H)
        as (pull_r & s1 & run_r & s2 & _ & _ & Hr).
      eexists _, _, _. split; [exact Hr|]. split; [reflexivity|].
      right. by eexists _, _, _, _.
    + eexists _, _, []. split; [by apply deploy_container_no_image|].
      simpl. split; [by rewrite app_nil_r|]. by left.
  - eexists _, _, []. split; [by apply deploy_container_no_get|].
    simpl. split; [by rewrite app_nil_r|]. by left.
Qed.

(** X3. An image entry that is [None], [False], a zero, the empty string,
    an empty list or an empty dictionary counts as no image at all: the
    method returns [None] and asks nothing of the engine. *)
Theorem deploy_container_falsy_image (d : gmap string value) (v : value)
    (w : world S) :
  d !! "image" = Some v →
  v ∈ [VNone; VBool false; VInt 0; VFloat 0; VFloat (2 ^ 63); VStr "";
       VList []; VDict ∅] →
  deploy_container client (VDict d) w =
    (Return None,
     {| engine := engine w; trace := trace w;
        records := records w ++ [(ERROR, MsgImageNotSpecified)] |}).
Proof.
  intros Hd Hv. apply deploy_container_no_image.
  unfold dict_get. rewrite Hd. simpl.
  repeat (apply elem_of_cons in Hv as [-> | Hv]; [reflexivity|]).
  by apply elem_of_nil in Hv.
Qed.

(** X4. When the creation request raises, the record logged tells an
    engine API error, [NotFound] included, from any other exception; the
    result is [None] in both cases, and a failed pull before it has left a
    warning. *)
Theorem deploy_container_failure_log (d : gmap string value) (w : world S)
    (pull_r : outcome ()) (s1 s2 : S) (e : exn) :
  truthy (dict_get d "image") = true →
  images_pull client (dict_get d "image") (engine w) = (pull_r, s1) →
  containers_run client (container_config_of d) s1 = (Raise e, s2) →
  ∃ w',
    deploy_container client (VDict d) w = (Return None, w') ∧
    last (records w') =
      Some (ERROR, if isinstance e APIError then MsgDeployAPIError e
                   else MsgDeployUnexpected e) ∧
    (∀ e', pull_r = Raise e' →
       (WARNING, MsgCouldNotPull (dict_get d "image") e') ∈ records w') ∧
    (pull_r = Return () →
       ∀ r, r ∈ records w' → r ∈ records w ∨ fst r ≠ WARNING).
Proof.
  intros H Hpull Hrun.
  destruct (deploy_container_image client d w H)
    as (pull_r' & s1' & run_r & s2' & Hpull' & Hrun' & Hd).
  rewrite Hpull in Hpull'. injection Hpull' as <- <-.
  rewrite Hrun in Hrun'. injection Hrun' as <- <-.
  eexists. split; [exact Hd|]. unfold deploy_records. simpl.
  split; [|split].
  - rewrite last_app. by destruct pull_r as [[]|e'].
  - intros e' ->. set_solver.
  - intros ->. simpl. intros r Hr.
    apply elem_of_app in Hr as [Hr|Hr]; [by left|]. right.
    repeat (apply elem_of_cons in Hr as [-> | Hr]; [by simpl|]).
    by apply elem_of_nil in Hr.
Qed.

Lemma copy_key_lookup_eq (k : string) (config m : gmap string value) :
  copy_key k config m !! k =
    match config !! k with Some v => Some v | None => m !! k end.
Proof.
  unfold copy_key. destruct (config !! k); [by rewrite lookup_insert_eq|done].
Qed.

Lemma copy_key_lookup_ne (k key : string) (config m : gmap string value) :
  key ≠ k → copy_key k config m !! key = m !! key.
Proof.
  intros Hk. unfold copy_key.
  destruct (config !! k); [by rewrite lookup_insert_ne|done].
Qed.

(** X5. The keyword arguments of the creation request, key by key: the
    image as given; [detach] always [True], whatever the configuration
    says; the name only if it is not empty; the environment, ports, command
    and volumes whenever the configuration has the key, even with a null
    value; and no other key of the configuration. *)
Theorem container_config_of_lookup (d : gmap string value) (key : string) :
  container_config_of d !! key =
    if decide (key = "image") then Some (dict_get d "image")
    else if decide (key = "detach") then Some (VBool true)
    else if decide (key = "name")
         then (if truthy (dict_get d "name") then Some (dict_get d "name")
               else None)
    else if decide (key ∈ ["environment"; "ports"; "command"; "volumes"])
         then d !! key
    else None.
Proof.
  unfold container_config_of.
  match goal with
  | |- context [copy_key "environment" d ?b] => set (base := b)
  end.
  assert (Hbase : ∀ k : string,
            k ∉ ["environment"; "ports"; "command"; "volumes"] →
            copy_key "volumes" d
              (copy_key "command" d
                 (copy_key "ports" d (copy_key "environment" d base))) !! k =
            base !! k).
  { intros k Hk. rewrite !not_elem_of_cons in Hk.
    destruct Hk as (? & ? & ? & ? & _).
    by rewrite !copy_key_lookup_ne. }
  repeat case_decide; subst.
  - rewrite Hbase by compute_done.
    subst base; destruct (truthy _); by simplify_map_eq.
  - rewrite Hbase by compute_done.
    subst base; destruct (truthy _); by simplify_map_eq.
  - rewrite Hbase by compute_done.
    subst base; destruct (truthy _); by simplify_map_eq.
  - repeat match goal with
           | H : _ ∈ _ :: _ |- _ => apply elem_of_cons in H as [-> | H]
           | H : _ ∈ [] |- _ => by apply elem_of_nil in H
           end.
    + rewrite !copy_key_lookup_ne, copy_key_lookup_eq by done.
      destruct (d !! "environment"); [done|].
      subst base; destruct (truthy _); by simplify_map_eq.
    + rewrite !copy_key_lookup_ne, copy_key_lookup_eq by done.
      destruct (d !! "ports"); [done|].
      rewrite copy_key_lookup_ne by done.
      subst base; destruct (truthy _); by simplify_map_eq.
    + rewrite !copy_key_lookup_ne, copy_key_lookup_eq by done.
      destruct (d !! "command"); [done|].
      rewrite !copy_key_lookup_ne by done.
      subst base; destruct (truthy _); by simplify_map_eq.
    + rewrite copy_key_lookup_eq.
      destruct (d !! "volumes"); [done|].
      rewrite !copy_key_lookup_ne by done.
      subst base; destruct (truthy _); by simplify_map_eq.
  - rewrite Hbase by done.
    subst base; destruct (truthy _); by simplify_map_eq.
Qed.

End DeployEdges.

(** ** The deployment file and the loop over it *)

Section MainEdges.
Context {S : Type} (client : DockerClient S) (rt : Runtime).
Import PodManagerController.

(** The loop over a list in two parts is the loop over the first part,
    then, if that returned, the loop over the second. *)
Lemma main_for_deployments_app (l1 l2 : list value) (w : world S) :
  main_for_deployments client (l1 ++ l2) w =
    match main_for_deployments client l1 w with
    | (Return _, w') => main_for_deployments client l2 w'
    | (Raise e, w') => (Raise e, w')
    end.
Proof.
  revert w. induction l1 as [|v l1 IH]; intros w; [reflexivity|].
  cbn [app main_for_deployments]. unfold_m.
  destruct v; try reflexivity.
  match goal with
  | |- context [deploy_container client ?c ?w0] =>
      destruct (deploy_container client c w0) as [[r|e] w1]
  end; [|reflexivity].
  destruct (truthy_id r); apply IH.
Qed.

Lemma main_for_deployments_dicts_return (specs : list (gmap string value))
    (w : world S) :
  ∃ w', main_for_deployments client (VDict <$> specs) w = (Return (), w').
Proof.
  revert w. induction specs as [|d specs IH]; intros w; [by eexists|].
  cbn [fmap list_fmap main_for_deployments]. unfold_m.
  match goal with
  | |- context [deploy_container client (VDict d) ?w0] =>
      destruct (deploy_container_dict client d w0) as (r & w1 & ? & -> & _)
  end.
  destruct (truthy_id r); apply IH.
Qed.

(** X6. An entry of the file that is not an object stops the loop with an
    [AttributeError] that [main] does not handle.  The entries before it
    have been applied as usual and stay applied; the entries after it are
    never looked at. *)
Theorem main_for_deployments_stops_at_non_object
    (specs : list (gmap string value)) (v : value) (rest : list value)
    (w : world S) :
  is_dict v = false →
  ∃ w',
    main_for_deployments client (VDict <$> specs) w = (Return (), w') ∧
    main_for_deployments client ((VDict <$> specs) ++ v :: rest) w =
      (Raise AttributeError, w').
Proof.
  intros Hv.
  destruct (main_for_deployments_dicts_return specs w) as [w' Hw'].
  exists w'. split; [exact Hw'|].
  rewrite main_for_deployments_app, Hw'.
  by destruct v.
Qed.

(** X7. [main] reports a deployment as successful exactly when its creation
    request returned a container with a non-empty identifier.  A creation
    that raised is reported as failed, and so is one that returned an empty
    identifier, although [deploy_container] returned it. *)
Theorem main_for_deployments_report (d : gmap string value) (w : world S) :
  truthy (dict_get d "image") = true →
  ∃ w' pull_r run_r,
    main_for_deployments client [VDict d] w = (Return (), w') ∧
    trace w' = trace w ++ [EvPull (dict_get d "image") pull_r;
                           EvRun (container_config_of d) run_r] ∧
    reported (records w') = reported (records w) ++ [report_of run_r].
Proof.
  intros H. cbn [main_for_deployments]. unfold_m.
  match goal with
  | |- context [deploy_container client (VDict d) ?w0] =>
      destruct (deploy_container_image client d w0 H)
        as (pull_r & s1 & run_r & s2 & _ & _ & ->)
  end.
  destruct (deploy_records_readings (dict_get d "image") pull_r
              (container_config_of d) run_r) as (_ & Hr & _).
  unfold report_of.
  destruct run_r as [c|e]; unfold deployed_id, truthy_id, truthy;
    [destruct (String.eqb (Container.id c) "") eqn:E|];
    cbn [negb]; eexists _, pull_r, _;
    (split; [reflexivity|]); cbn [trace records];
    (split; [reflexivity|]);
    rewrite !reported_app, Hr, ?E; cbn; by rewrite ?app_nil_r.
Qed.

(** X8. [main] sends nothing to the engine and goes on normally when there
    is no deployment to make: the configuration file does not exist; or it
    has gone by the time it is opened; or it is not well-formed JSON; or it
    holds an empty array. *)
Theorem main_deployments_nothing_to_deploy (w : world S) :
  let config_file :=
    default "/config/deployments.json" (environ_get rt "DEPLOYMENT_CONFIG") in
  path_exists rt config_file = false ∨
  open_ rt config_file = Raise FileNotFoundError ∨
  (∃ f, open_ rt config_file = Return f ∧
        (json_load rt f = Raise JSONDecodeError ∨
         json_load rt f = Return (VList []))) →
  ∃ w', main_deployments client rt w = (Return (), w') ∧
        engine w' = engine w ∧ trace w' = trace w.
Proof.
  intros config_file Hcase. unfold main_deployments. fold config_file.
  destruct (path_exists rt config_file) eqn:Hex.
  - destruct Hcase as [Hcase|Hcase]; [done|]. unfold_m.
    set (w0 := {| engine := engine w; trace := trace w;
                  records := records w ++
                    [(INFO, MsgLoadingDeployments config_file)] |}).
    destruct Hcase as [Ho|(f & Ho & [Hj|Hj])].
    + rewrite (load_deployments_from_file_raise rt config_file w0
                 FileNotFoundError) by (by left).
      simpl. by eexists.
    + rewrite (load_deployments_from_file_raise rt config_file w0
                 JSONDecodeError) by (right; eauto).
      simpl. by eexists.
    + rewrite (load_deployments_from_file_data rt config_file w0 f
                 (VList [])) by done.
      simpl. by eexists.
  - unfold_m. by eexists.
Qed.

(** X9. An exception of opening or decoding the configuration file other
    than [FileNotFoundError] and [JSONDecodeError] is not handled anywhere:
    it leaves [main], before any request to the engine. *)
Theorem main_deployments_load_raises (w : world S) (e : exn) :
  let config_file :=
    default "/config/deployments.json" (environ_get rt "DEPLOYMENT_CONFIG") in
  path_exists rt config_file = true →
  e ≠ FileNotFoundError → e ≠ JSONDecodeError →
  (open_ rt config_file = Raise e ∨
   ∃ f, open_ rt config_file = Return f ∧ json_load rt f = Raise e) →
  ∃ w', main_deployments client rt w = (Raise e, w') ∧
        engine w' = engine w ∧ trace w' = trace w.
Proof.
  intros config_file Hex H1 H2 Hr. unfold main_deployments.
  fold config_file. rewrite Hex. unfold_m.
  match goal with
  | |- context [load_deployments_from_file rt config_file ?w0] =>
      rewrite (load_deployments_from_file_raise rt config_file w0 e Hr)
  end.
  destruct (isinstance e FileNotFoundError) eqn:E1.
  { by apply isinstance_FileNotFoundError in E1. }
  destruct (isinstance e JSONDecodeError) eqn:E2.
  { by apply isinstance_JSONDecodeError in E2. }
  by eexists.
Qed.

End MainEdges.

(** ** main from the construction of the controller to the idle loop *)

Section StartupClaims.
Context {S : Type} (rt : Runtime).
Import PodManagerController Startup.

(** The dictionaries [list_containers] builds have the three keys the final
    loop of [main] reads, so the loop prints one line for each. *)
Lemma main_for_containers_infos (cs : list Container.t)
    (infos : list (gmap string value)) (p : process S) :
  project_all cs = Return infos →
  main_for_containers infos p =
    (Ok (), {| inner := inner p;
               journal := journal p ++ (line_entry <$> cs) |}).
Proof.
  revert infos p. induction cs as [|c cs IH]; intros infos p; simpl.
  - intros [= <-]. simpl. unfold_p. rewrite app_nil_r. by destruct p.
  - destruct (Container.image c) as [[img|]|e]; try discriminate.
    destruct (project_all cs) as [rest|e]; try discriminate.
    intros [= <-]. cbn [main_for_containers]. unfold_p.
    destruct (container_info_with_fields c img) as (-> & -> & -> & _).
    rewrite (IH rest) by reflexivity. cbn [inner journal].
    by rewrite <- app_assoc.
Qed.

Lemma container_lines_app (j j' : list entry) :
  container_lines (j ++ j') = container_lines j ++ container_lines j'.
Proof. apply omap_app. Qed.

Lemma container_lines_logged (rs : list log_record) :
  container_lines (Logged <$> rs) = [].
Proof. induction rs; auto. Qed.

Lemma container_lines_entries (cs : list Container.t) :
  container_lines (line_entry <$> cs) = line_of <$> cs.
Proof. induction cs as [|c cs IH]; [done|]. cbn. f_equal. exact IH. Qed.

(** [main] once the deployment part has returned. *)
Lemma main_after_deployments (client : DockerClient S) (p : process S)
    (w1 : world S) :
  main_deployments client rt (inner p) = (Return (), w1) →
  ∃ list_r s2,
    containers_list client true (engine w1) = (list_r, s2) ∧
    main (Return client) rt p =
      (Ok (),
       {| inner :=
            {| engine := s2;
               trace := trace w1 ++ [EvList true list_r];
               records := records w1 ++ listing_records list_r |};
          journal :=
            journal p ++
            [Noted INFO MsgStarting; Noted INFO MsgClientInitialized] ++
            (Logged <$> drop (length (records (inner p))) (records w1)) ++
            [Noted INFO MsgCurrentContainers] ++
            (Logged <$> listing_records list_r) ++
            (line_entry <$> listed list_r) ++
            [Noted INFO MsgControllerInitialized] |}).
Proof.
  intros Hd.
  destruct (containers_list client true (engine w1)) as [list_r s2] eqn:Hl.
  exists list_r, s2. split; [reflexivity|].
  unfold main, init. unfold_p. cbn [inner journal]. rewrite Hd.
  cbn [inner journal]. unfold listed, listing_records.
  destruct list_r as [cs|e].
  - rewrite (list_containers_returns client (Some true) w1 cs s2 Hl).
    pose proof (project_all_has_image cs) as Hp.
    destruct (forallb has_image cs).
    + destruct Hp as (infos & Hp & _). rewrite Hp.
      rewrite (main_for_containers_infos cs infos) by exact Hp.
      cbn [inner journal records].
      rewrite app_nil_r, drop_all. simpl.
      by rewrite <- !app_assoc.
    + destruct Hp as (e & ->). cbn [inner journal records main_for_containers].
      unfold_p. cbn [inner journal records].
      rewrite drop_app_length. simpl. by rewrite <- !app_assoc.
  - unfold list_containers. unfold_m.
    change (default false (Some true)) with true. rewrite Hl. simpl.
    rewrite isinstance_Exception. simpl.
    rewrite drop_app_length. simpl. by rewrite <- !app_assoc.
Qed.

(** X10. If the construction of the controller raises, whatever the
    exception, [main] exits with status 1 and nothing has been asked of the
    engine.  A [DockerException] is logged twice, by the constructor and by
    [main]; any other exception by [main] only. *)
Theorem main_exits_when_construction_fails (e : exn) (p : process S) :
  main (Raise e) rt p =
    (Fail (SystemExit 1),
     {| inner := inner p;
        journal :=
          journal p ++ [Noted INFO MsgStarting] ++
          (if isinstance e DockerException
           then [Noted ERROR (MsgClientInitFailed (Exn e))] else []) ++
          [Noted ERROR (MsgControllerInitFailed (Exn e))] |}).
Proof.
  unfold main, init. unfold_p. cbn [inner journal fault_isinstance].
  destruct (isinstance e DockerException); cbn [inner journal fault_isinstance];
    rewrite isinstance_Exception; cbn [inner journal];
    by rewrite <- !app_assoc.
Qed.

(** X11. Once the controller is constructed and the deployment part has
    returned, [main] reaches its idle loop whatever the engine answers to
    the final listing.  That listing is the one request it adds, with
    [all=True]; no line of the listing can fail for a missing key. *)
Theorem main_reaches_idle (client : DockerClient S) (p : process S)
    (w1 : world S) :
  main_deployments client rt (inner p) = (Return (), w1) →
  ∃ list_r p',
    main (Return client) rt p = (Ok (), p') ∧
    containers_list client true (engine w1) = (list_r, engine (inner p')) ∧
    trace (inner p') = trace w1 ++ [EvList true list_r].
Proof.
  intros Hd.
  destruct (main_after_deployments client p w1 Hd)
    as (list_r & s2 & Hl & Hm).
  eexists list_r, _. split; [exact Hm|]. by split.
Qed.

(** X12. The final listing prints one line per container the engine
    returned, in the engine's order, with the container's name, the first
    12 characters of its identifier and its status, provided the image of
    every container could be read.  When the listing request raised, or
    the image of some container could not be read, it prints none. *)
Theorem main_lists_containers (client : DockerClient S) (p : process S)
    (w1 : world S) (list_r : outcome (list Container.t)) (s2 : S) :
  main_deployments client rt (inner p) = (Return (), w1) →
  containers_list client true (engine w1) = (list_r, s2) →
  container_lines (journal (snd (main (Return client) rt p))) =
    container_lines (journal p) ++
    match list_r with
    | Return cs => if forallb has_image cs then line_of <$> cs else []
    | Raise _ => []
    end.
Proof.
  intros Hd Hl.
  destruct (main_after_deployments client p w1 Hd)
    as (list_r' & s2' & Hl' & ->).
  rewrite Hl in Hl'. injection Hl' as <- <-.
  cbn [snd journal].
  rewrite !container_lines_app, !container_lines_logged,
    container_lines_entries.
  simpl. rewrite app_nil_r. unfold listed.
  destruct list_r as [cs|e]; [|done]. by destruct (forallb has_image cs).
Qed.

(** X13. An exception that leaves the deployment part leaves [main] too,
    unhandled: the containers are not listed and the idle loop is not
    reached. *)
Theorem main_fails_with_deployments (client : DockerClient S)
    (p : process S) (e : exn) (w1 : world S) :
  main_deployments client rt (inner p) = (Raise e, w1) →
  ∃ p', main (Return client) rt p = (Fail (Exn e), p') ∧ inner p' = w1.
Proof.
  intros Hd. unfold main, init. unfold_p. cbn [inner journal].
  rewrite Hd. by eexists.
Qed.

End StartupClaims.

(** ** What the listing returns and what the lifecycle methods log *)

Section ShapeAndLog.
Context {S : Type} (client : DockerClient S) (rt : Runtime).
Import PodManagerController.

(** X14. Every dictionary [list_containers] returns has exactly the keys
    [id], [name], [image] and [status], each with a string for value, and
    an [id] of at most 12 characters. *)
Theorem list_containers_record_shape (all_containers : option bool)
    (w w' : world S) (infos : list (gmap string value)) :
  list_containers client all_containers w = (Return infos, w') →
  Forall (λ info : gmap string value,
            dom info = ({["id"; "name"; "image"; "status"]} : gset string) ∧
            (∀ key v, info !! key = Some v → ∃ s, v = VStr s) ∧
            (∀ s, info !! "id" = Some (VStr s) →
                  (String.length s ≤ 12)%nat)) infos.
Proof.
  intros Hl.
  destruct (containers_list client (default false all_containers) (engine w))
    as [[cs|e] s1] eqn:Hc.
  - rewrite (list_containers_returns client all_containers w cs s1 Hc) in Hl.
    pose proof (project_all_has_image cs) as Hp.
    destruct (forallb has_image cs).
    + destruct Hp as (infos' & Hp & HF). rewrite Hp in Hl.
      injection Hl as <- _.
      apply Forall_forall. intros info Hin.
      apply list_elem_of_lookup in Hin as [i Hi].
      destruct (Forall2_lookup_r _ _ _ _ _ HF Hi)
        as (c & _ & img & _ & ->).
      split; [|split].
      * unfold container_info_with.
        rewrite !dom_insert_L, dom_singleton_L. set_solver.
      * intros key v Hk. unfold container_info_with in Hk.
        repeat (apply lookup_insert_Some in Hk as [[_ <-]|[_ Hk]]; [eauto|]).
        apply lookup_singleton_Some in Hk as [_ <-]. eauto.
      * intros s Hs.
        destruct (container_info_with_fields c img) as (Hid & _).
        assert (s = str_take 12 (Container.id c)) as -> by congruence.
        rewrite str_take_length. lia.
    + destruct Hp as (e & Hp). rewrite Hp in Hl.
      injection Hl as <- _. constructor.
  - unfold list_containers in Hl. unfold_m. rewrite Hc in Hl. simpl in Hl.
    rewrite isinstance_Exception in Hl. simpl in Hl.
    injection Hl as <- _. constructor.
Qed.

(** X15. When the lookup of the container raises, the three lifecycle
    methods log one error.  It says that the container was not found when
    the exception is a [NotFound], and names the operation and the
    exception otherwise: the log tells apart what the result does not. *)
Theorem lifecycle_lookup_failure_log (container_id : string)
    (force : option bool) (tail : option Z) (w : world S) (e : exn) (s1 : S) :
  containers_get client container_id (engine w) = (Raise e, s1) →
  records (snd (stop_container client container_id w)) =
    records w ++ [failure_record container_id MsgErrorStopping e] ∧
  records (snd (remove_container client container_id force w)) =
    records w ++ [failure_record container_id MsgErrorRemoving e] ∧
  records (snd (get_container_logs client rt container_id tail w)) =
    records w ++ [failure_record container_id MsgErrorGettingLogs e].
Proof.
  intros Hg. unfold failure_record.
  unfold stop_container, remove_container, get_container_logs. unfold_m.
  rewrite Hg. simpl.
  destruct (isinstance e NotFound); simpl;
    rewrite ?isinstance_Exception; simpl; done.
Qed.

(** X16. When the lookup returns, what is logged follows the operation
    itself: a success of stop or remove is logged at [INFO]; an exception
    of the operation is logged as above, so a container that vanished
    between the lookup and the operation is logged as not found; reading
    the logs adds nothing to the log unless the request or the decoding
    raises. *)
Theorem lifecycle_operation_log (container_id : string)
    (force : option bool) (tail : option Z) (w : world S)
    (c : Container.t) (s1 sa sb sc : S)
    (stop_r remove_r : outcome ()) (logs_r : outcome (list Byte.byte)) :
  containers_get client container_id (engine w) = (Return c, s1) →
  container_stop client c s1 = (stop_r, sa) →
  container_remove client c (default false force) s1 = (remove_r, sb) →
  container_logs client c (default 100 tail) s1 = (logs_r, sc) →
  records (snd (stop_container client container_id w)) =
    records w ++
    [match stop_r with
     | Return _ => (INFO, MsgStopped container_id)
     | Raise e => failure_record container_id MsgErrorStopping e
     end] ∧
  records (snd (remove_container client container_id force w)) =
    records w ++
    [match remove_r with
     | Return _ => (INFO, MsgRemoved container_id)
     | Raise e => failure_record container_id MsgErrorRemoving e
     end] ∧
  records (snd (get_container_logs client rt container_id tail w)) =
    records w ++
    match logs_r with
    | Return raw =>
        match bytes_decode_utf8 rt raw with
        | Return _ => []
        | Raise e => [failure_record container_id MsgErrorGettingLogs e]
        end
    | Raise e => [failure_record container_id MsgErrorGettingLogs e]
    end.
Proof.
  intros Hg Hs Hr Hl. unfold failure_record.
  unfold stop_container, remove_container, get_container_logs. unfold_m.
  rewrite Hg. simpl. rewrite Hs, Hr, Hl.
  split; [|split].
  - destruct stop_r as [[]|e]; simpl; [done|].
    destruct (isinstance e NotFound); simpl;
      rewrite ?isinstance_Exception; simpl; done.
  - destruct remove_r as [[]|e]; simpl; [done|].
    destruct (isinstance e NotFound); simpl;
      rewrite ?isinstance_Exception; simpl; done.
  - destruct logs_r as [raw|e]; simpl.
    + destruct (bytes_decode_utf8 rt raw) as [text|e]; simpl;
        [by rewrite app_nil_r|].
      destruct (isinstance e NotFound); simpl;
        rewrite ?isinstance_Exception; simpl; done.
    + destruct (isinstance e NotFound); simpl;
        rewrite ?isinstance_Exception; simpl; done.
Qed.

End ShapeAndLog.

(** ** The further properties at work *)

Lemma deploy_container_not_a_dict_witness :
  is_dict (VList [Fixture.app1]) = false ∧
  PodManagerController.deploy_container Fixture.client
    (VList [Fixture.app1]) Fixture.fresh =
    (Return None,
     {| engine := []; trace := [];
        records := [(ERROR, MsgDeployUnexpected AttributeError)] |}).
Proof.
  split; [reflexivity|].
  apply (deploy_container_not_a_dict Fixture.client (VList [Fixture.app1])
           Fixture.fresh).
  reflexivity.
Defined.

Lemma deploy_container_falsy_image_witness :
  Scenario.null_image_config !! "image" = Some VNone ∧
  PodManagerController.deploy_container Fixture.client
    (VDict Scenario.null_image_config) Fixture.fresh =
    (Return None,
     {| engine := []; trace := [];
        records := [(ERROR, MsgImageNotSpecified)] |}).
Proof.
  split; [reflexivity|].
  apply (deploy_container_falsy_image Fixture.client
           Scenario.null_image_config VNone Fixture.fresh);
    [reflexivity | apply list_elem_of_here].
Defined.

Lemma deploy_container_failure_log_witness :
  truthy (dict_get Fixture.locked_config "image") = true ∧
  images_pull Fixture.client (dict_get Fixture.locked_config "image")
    (engine Fixture.fresh) = (Return (), []) ∧
  containers_run Fixture.client
    (PodManagerController.container_config_of Fixture.locked_config) [] =
    (Raise APIError, []) ∧
  ∃ w',
    PodManagerController.deploy_container Fixture.client
      (VDict Fixture.locked_config) Fixture.fresh = (Return None, w') ∧
    last (records w') =
      Some (ERROR, if isinstance APIError APIError
                   then MsgDeployAPIError APIError
                   else MsgDeployUnexpected APIError) ∧
    (∀ e', Return () = Raise e' →
       (WARNING, MsgCouldNotPull (dict_get Fixture.locked_config "image") e')
         ∈ records w') ∧
    (Return () = Return () →
       ∀ r, r ∈ records w' → r ∈ records Fixture.fresh ∨ fst r ≠ WARNING).
Proof.
  split; [reflexivity|]. split; [reflexivity|]. split; [reflexivity|].
  apply (deploy_container_failure_log Fixture.client Fixture.locked_config
           Fixture.fresh (Return ()) [] [] APIError); reflexivity.
Defined.

Lemma main_for_deployments_stops_at_non_object_witness :
  is_dict (VStr "redis:alpine") = false ∧
  ∃ w',
    main_for_deployments Fixture.client (VDict <$> [Fixture.app1_config])
      Fixture.fresh = (Return (), w') ∧
    main_for_deployments Fixture.client
      ((VDict <$> [Fixture.app1_config]) ++
       VStr "redis:alpine" :: [Fixture.app2]) Fixture.fresh =
      (Raise AttributeError, w').
Proof.
  split; [reflexivity|].
  apply (main_for_deployments_stops_at_non_object Fixture.client
           [Fixture.app1_config] (VStr "redis:alpine") [Fixture.app2]
           Fixture.fresh).
  reflexivity.
Defined.

Lemma main_for_deployments_report_witness :
  truthy (dict_get Fixture.app1_config "image") = true ∧
  ∃ w' pull_r run_r,
    main_for_deployments Fixture.client [VDict Fixture.app1_config]
      Fixture.fresh = (Return (), w') ∧
    trace w' =
      trace Fixture.fresh ++
      [EvPull (dict_get Fixture.app1_config "image") pull_r;
       EvRun (PodManagerController.container_config_of Fixture.app1_config)
         run_r] ∧
    reported (records w') =
      reported (records Fixture.fresh) ++ [report_of run_r].
Proof.
  split; [reflexivity|].
  apply (main_for_deployments_report Fixture.client Fixture.app1_config
           Fixture.fresh).
  reflexivity.
Defined.

Lemma main_deployments_nothing_to_deploy_witness :
  path_exists (Scenario.runtime_at "/config/absent.json")
    "/config/absent.json" = false ∧
  ∃ w',
    main_deployments Fixture.client
      (Scenario.runtime_at "/config/absent.json") Fixture.fresh =
      (Return (), w') ∧
    engine w' = engine Fixture.fresh ∧ trace w' = trace Fixture.fresh.
Proof.
  split; [reflexivity|].
  apply (main_deployments_nothing_to_deploy Fixture.client
           (Scenario.runtime_at "/config/absent.json") Fixture.fresh).
  left. reflexivity.
Defined.

Lemma main_deployments_load_raises_witness :
  path_exists (Scenario.runtime_at "/config") "/config" = true ∧
  open_ (Scenario.runtime_at "/config") "/config" = Raise IsADirectoryError ∧
  ∃ w',
    main_deployments Fixture.client (Scenario.runtime_at "/config")
      Fixture.fresh = (Raise IsADirectoryError, w') ∧
    engine w' = engine Fixture.fresh ∧ trace w' = trace Fixture.fresh.
Proof.
  split; [reflexivity|]. split; [reflexivity|].
  apply (main_deployments_load_raises Fixture.client
           (Scenario.runtime_at "/config") Fixture.fresh IsADirectoryError);
    [reflexivity | discriminate | discriminate | left; reflexivity].
Defined.

Lemma main_reaches_idle_witness :
  main_deployments Fixture.client Fixture.runtime
    (Startup.inner Scenario.boot) = (Return (), Scenario.after_deployments) ∧
  ∃ list_r p',
    Startup.main (Return Fixture.client) Fixture.runtime Scenario.boot =
      (Startup.Ok (), p') ∧
    containers_list Fixture.client true (engine Scenario.after_deployments) =
      (list_r, engine (Startup.inner p')) ∧
    trace (Startup.inner p') =
      trace Scenario.after_deployments ++ [EvList true list_r].
Proof.
  split; [vm_compute; reflexivity|].
  apply (main_reaches_idle Fixture.runtime Fixture.client Scenario.boot
           Scenario.after_deployments).
  vm_compute; reflexivity.
Defined.

Lemma main_lists_containers_witness :
  main_deployments Fixture.client Fixture.runtime
    (Startup.inner Scenario.boot) = (Return (), Scenario.after_deployments) ∧
  containers_list Fixture.client true (engine Scenario.after_deployments) =
    (Return (engine Scenario.after_deployments),
     engine Scenario.after_deployments) ∧
  container_lines
    (Startup.journal
       (snd (Startup.main (Return Fixture.client) Fixture.runtime
               Scenario.boot))) =
    container_lines (Startup.journal Scenario.boot) ++
    (if forallb has_image (engine Scenario.after_deployments)
     then line_of <$> engine Scenario.after_deployments else []).
Proof.
  split; [vm_compute; reflexivity|]. split; [vm_compute; reflexivity|].
  apply (main_lists_containers Fixture.runtime Fixture.client Scenario.boot
           Scenario.after_deployments
           (Return (engine Scenario.after_deployments))
           (engine Scenario.after_deployments)); vm_compute; reflexivity.
Defined.

Lemma main_fails_with_deployments_witness :
  main_deployments Fixture.client (Scenario.runtime_at "/config")
    (Startup.inner Scenario.boot) =
    (Raise IsADirectoryError,
     {| engine := []; trace := [];
        records := [(INFO, MsgLoadingDeployments "/config")] |}) ∧
  ∃ p',
    Startup.main (Return Fixture.client) (Scenario.runtime_at "/config")
      Scenario.boot = (Startup.Fail (Startup.Exn IsADirectoryError), p') ∧
    Startup.inner p' =
      {| engine := []; trace := [];
         records := [(INFO, MsgLoadingDeployments "/config")] |}.
Proof.
  split; [reflexivity|].
  apply (main_fails_with_deployments (Scenario.runtime_at "/config")
           Fixture.client Scenario.boot IsADirectoryError).
  reflexivity.
Defined.

Lemma list_containers_record_shape_witness :
  PodManagerController.list_containers Fixture.client (Some true)
    Fixture.populated =
    (Return [PodManagerController.container_info_with Fixture.nginx
               Fixture.nginx_image;
             PodManagerController.container_info_with Fixture.orphan
               Fixture.orphan_image],
     {| engine := [Fixture.nginx; Fixture.orphan];
        trace := [EvList true (Return [Fixture.nginx; Fixture.orphan])];
        records := [] |}) ∧
  Forall (λ info : gmap string value,
            dom info = ({["id"; "name"; "image"; "status"]} : gset string) ∧
            (∀ key v, info !! key = Some v → ∃ s, v = VStr s) ∧
            (∀ s, info !! "id" = Some (VStr s) →
                  (String.length s ≤ 12)%nat))
         [PodManagerController.container_info_with Fixture.nginx
            Fixture.nginx_image;
          PodManagerController.container_info_with Fixture.orphan
            Fixture.orphan_image].
Proof.
  split; [reflexivity|].
  eapply (list_containers_record_shape Fixture.client (Some true)
            Fixture.populated).
  reflexivity.
Defined.

Lemma lifecycle_lookup_failure_log_witness :
  containers_get Fixture.client "nobody" (engine Fixture.fresh) =
    (Raise NotFound, []) ∧
  records (snd (PodManagerController.stop_container Fixture.client "nobody"
                  Fixture.fresh)) =
    records Fixture.fresh ++
    [failure_record "nobody" MsgErrorStopping NotFound] ∧
  records (snd (PodManagerController.remove_container Fixture.client
                  "nobody" None Fixture.fresh)) =
    records Fixture.fresh ++
    [failure_record "nobody" MsgErrorRemoving NotFound] ∧
  records (snd (PodManagerController.get_container_logs Fixture.client
                  Fixture.runtime "nobody" None Fixture.fresh)) =
    records Fixture.fresh ++
    [failure_record "nobody" MsgErrorGettingLogs NotFound].
Proof.
  split; [reflexivity|].
  apply (lifecycle_lookup_failure_log Fixture.client Fixture.runtime
           "nobody" None None Fixture.fresh NotFound []).
  reflexivity.
Defined.

Lemma lifecycle_operation_log_witness :
  let c := Fixture.nginx_of "app1" in
  let w := Scenario.after_app1 in
  containers_get Fixture.client "app1" (engine w) = (Return c, [c]) ∧
  container_stop Fixture.client c [c] = (Return (), [Fixture.exited c]) ∧
  container_remove Fixture.client c (default false None) [c] =
    (Raise APIError, [c]) ∧
  container_logs Fixture.client c (default 100 None) [c] =
    (Return (list_byte_of_string "ready"), [c]) ∧
  records (snd (PodManagerController.stop_container Fixture.client "app1" w))
    = records w ++ [(INFO, MsgStopped "app1")] ∧
  records (snd (PodManagerController.remove_container Fixture.client "app1"
                  None w)) =
    records w ++ [failure_record "app1" MsgErrorRemoving APIError] ∧
  records (snd (PodManagerController.get_container_logs Fixture.client
                  Fixture.runtime "app1" None w)) =
    records w ++
    match bytes_decode_utf8 Fixture.runtime (list_byte_of_string "ready") with
    | Return _ => []
    | Raise e => [failure_record "app1" MsgErrorGettingLogs e]
    end.
Proof.
  intros c w.
  split; [reflexivity|]. split; [reflexivity|]. split; [reflexivity|].
  split; [reflexivity|].
  apply (lifecycle_operation_log Fixture.client Fixture.runtime "app1" None
           None w c [c] [Fixture.exited c] [c] [c] (Return ())
           (Raise APIError) (Return (list_byte_of_string "ready")));
    reflexivity.
Defined.

(** ** A configuration file that is not a list of objects *)

Section ScalarDocument.
Context {S : Type} (client : DockerClient S) (rt : Runtime).

(** X17. A configuration file whose document is neither an array nor an
    object, such as a bare string, a number or [null], is loaded as the
    list of that one value; [main] then fails on it with an
    [AttributeError], before any request to the engine. *)
Theorem main_deployments_scalar_document (w : world S)
    (f : list Byte.byte) (data : value) :
  let config_file :=
    default "/config/deployments.json" (environ_get rt "DEPLOYMENT_CONFIG") in
  path_exists rt config_file = true →
  open_ rt config_file = Return f →
  json_load rt f = Return data →
  is_dict data = false →
  (∀ l, data ≠ VList l) →
  load_deployments_from_file rt config_file w = (Return [data], w) ∧
  ∃ w', main_deployments client rt w = (Raise AttributeError, w') ∧
        engine w' = engine w ∧ trace w' = trace w.
Proof.
  intros config_file Hex Ho Hj Hd Hl. split.
  - rewrite (load_deployments_from_file_data rt config_file w f data Ho Hj).
    destruct data; try reflexivity. by destruct (Hl l).
  - unfold main_deployments. fold config_file. rewrite Hex. unfold_m.
    match goal with
    | |- context [load_deployments_from_file rt config_file ?w0] =>
        rewrite (load_deployments_from_file_data rt config_file w0 f data
                   Ho Hj)
    end.
    destruct data; try discriminate; try (by eexists).
    by destruct (Hl l).
Qed.

End ScalarDocument.

Lemma main_deployments_scalar_document_witness :
  let rt := Scenario.serving (Return []) (Return (VStr "nginx:alpine")) in
  path_exists rt "/config/deployments.json" = true ∧
  open_ rt "/config/deployments.json" = Return [] ∧
  json_load rt [] = Return (VStr "nginx:alpine") ∧
  is_dict (VStr "nginx:alpine") = false ∧
  load_deployments_from_file rt "/config/deployments.json" Fixture.fresh =
    (Return [VStr "nginx:alpine"], Fixture.fresh) ∧
  ∃ w', main_deployments Fixture.client rt Fixture.fresh =
          (Raise AttributeError, w') ∧
        engine w' = engine Fixture.fresh ∧ trace w' = trace Fixture.fresh.
Proof.
  intros rt.
  split; [reflexivity|]. split; [reflexivity|]. split; [reflexivity|].
  split; [reflexivity|].
  apply (main_deployments_scalar_document Fixture.client rt Fixture.fresh
           [] (VStr "nginx:alpine")); try reflexivity.
  intros l. discriminate.
Defined.
